(** * Flask / MySQL login system: a shallow embedding of [app.py] and [app1.py]

    The repository holds two variants of one small web application:
    - [app.py]  (module [App]):  database settings read from the environment,
      connection retry loop, error handling around every store operation;
    - [app1.py] (module [App1]): hardcoded settings, a single connection
      attempt, no handling of store errors other than a duplicate key.

    The request handlers are translated into a small state-and-exception
    monad.  The state holds what the handlers read and mutate: the [users]
    table, the Flask [session], the flashed messages, the connection and the
    cursor of the current request, and a trace of the calls made to the
    outside world.  What the outside world answers (does [connect] succeed,
    does a statement fail) is an explicit [World] argument. *)

From Stdlib Require Import ZArith String List Bool Lia.
From stdpp Require Import base gmap strings list.

Local Open Scope string_scope.
Local Open Scope Z_scope.

(** ** Python values *)

(** Values stored in rows, in the session and passed as query parameters. *)
Inductive value :=
| VNone
| VInt (z : Z)
| VStr (s : string).

(** What a template receives as a keyword argument: a plain value, or a
    dictionary row produced by a [dictionary=True] cursor. *)
Inductive pyobj :=
| ObjValue (v : value)
| ObjDict (d : gmap string value).

(** ** The [users] table (schema of [init_db], app1.py lines 64-72) *)

Record User := mkUser {
  u_id : Z;
  u_username : string;
  u_email : string;
  u_password : string;
  u_created_at : Z
}.

Record Store := mkStore {
  users : list User;
  next_id : Z
}.

(** [SELECT * FROM users]: every column. *)
Definition row_all (u : User) : gmap string value :=
  <["id" := VInt (u_id u)]>
  (<["username" := VStr (u_username u)]>
  (<["email" := VStr (u_email u)]>
  (<["password" := VStr (u_password u)]>
  (<["created_at" := VInt (u_created_at u)]> ∅)))).

(** [SELECT id, username, email, created_at FROM users]. *)
Definition row_profile (u : User) : gmap string value :=
  <["id" := VInt (u_id u)]>
  (<["username" := VStr (u_username u)]>
  (<["email" := VStr (u_email u)]>
  (<["created_at" := VInt (u_created_at u)]> ∅))).

(** The statement texts the handlers pass to [cursor.execute]. *)
Definition sql_insert_user : string :=
  "INSERT INTO users (username, email, password) VALUES (%s, %s, %s)".
Definition sql_select_by_email : string :=
  "SELECT * FROM users WHERE email = %s".
Definition sql_select_by_username : string :=
  "SELECT * FROM users WHERE username = %s".
Definition sql_select_profile : string :=
  "SELECT id, username, email, created_at FROM users WHERE id = %s".
Definition sql_create_database_prefix : string :=
  "CREATE DATABASE IF NOT EXISTS ".
Definition sql_use_prefix : string := "USE ".
(** The CREATE TABLE literal of [init_db]; its line breaks and indentation
    are written as single spaces. *)
Definition sql_create_table : string :=
  "CREATE TABLE IF NOT EXISTS users (id INT AUTO_INCREMENT PRIMARY KEY, username VARCHAR(80) UNIQUE NOT NULL, email VARCHAR(120) UNIQUE NOT NULL, password VARCHAR(255) NOT NULL, created_at TIMESTAMP DEFAULT CURRENT_TIMESTAMP)".

(** What the server answers to one statement. *)
Inductive stmt_result :=
| Rows (rs : list (gmap string value))
| Inserted (u : User)
| NoResult
| SqlIntegrityError
| SqlOtherError.

Definition find_by_email (rows : list User) (e : string) : list User :=
  filter (fun u => u_email u = e) rows.
Definition find_by_username (rows : list User) (n : string) : list User :=
  filter (fun u => u_username u = n) rows.
Definition find_by_id (rows : list User) (i : Z) : list User :=
  filter (fun u => u_id u = i) rows.

(** The UNIQUE constraints on [username] and [email]. *)
Definition violates_unique (rows : list User) (n e : string) : bool :=
  existsb (fun u => String.eqb (u_username u) n || String.eqb (u_email u) e) rows.

(** The server side of [cursor.execute(sql, params)]: the statement is
    recognised by its text, the parameters are bound to the [%s] markers.
    [rows] are the rows visible to the connection (committed rows followed
    by the rows it has inserted and not yet committed). *)
Definition run_statement (db : Store) (pending : list User) (now : Z)
    (sql : string) (params : list value) : stmt_result :=
  let rows := (users db ++ pending)%list in
  if String.eqb sql sql_insert_user then
    match params with
    | [VStr n; VStr e; VStr p] =>
        if violates_unique rows n e then SqlIntegrityError
        else Inserted (mkUser (next_id db + Z.of_nat (length pending)) n e p now)
    | _ => SqlOtherError
    end
  else if String.eqb sql sql_select_by_email then
    match params with
    | [VStr e] => Rows (row_all <$> find_by_email rows e)
    | _ => SqlOtherError
    end
  else if String.eqb sql sql_select_by_username then
    match params with
    | [VStr n] => Rows (row_all <$> find_by_username rows n)
    | _ => SqlOtherError
    end
  else if String.eqb sql sql_select_profile then
    match params with
    | [VInt i] => Rows (row_profile <$> find_by_id rows i)
    | [_] => Rows []
    | _ => SqlOtherError
    end
  else if String.prefix sql_create_database_prefix sql
          || String.prefix sql_use_prefix sql
          || String.eqb sql sql_create_table then NoResult
  else SqlOtherError.

(** ** The outside world *)

(** Outcome of one call to [mysql.connector.connect]. *)
Inductive ConnectResult :=
| Connected        (* returns a connection whose is_connected() is True *)
| NotConnected     (* returns a connection whose is_connected() is False *)
| ConnectError.    (* raises mysql.connector.Error *)

(** The cursor and connection calls that talk to the server. *)
Inductive db_call := CallExecute | CallCommit | CallFetchone.

(** What the environment does during one request.
    - [w_connect n]: the outcome of the (n+1)-th call to [connect];
    - [w_fault]: [Some (c, alive)] makes call [c] raise a
      [mysql.connector.Error] that is not an [IntegrityError]; [alive] tells
      whether [is_connected()] still holds afterwards;
    - [w_now]: the server clock (CURRENT_TIMESTAMP);
    - [w_salt]: the random salt drawn by [generate_password_hash]. *)
Record World := mkWorld {
  w_connect : nat -> ConnectResult;
  w_fault : option (db_call * bool);
  w_now : Z;
  w_salt : string
}.

Definition db_call_eqb (a b : db_call) : bool :=
  match a, b with
  | CallExecute, CallExecute | CallCommit, CallCommit
  | CallFetchone, CallFetchone => true
  | _, _ => false
  end.

(** Does call [c] fail in world [w]?  [Some alive] when it does. *)
Definition fault_at (w : World) (c : db_call) : option bool :=
  match w_fault w with
  | Some (c', alive) => if db_call_eqb c c' then Some alive else None
  | None => None
  end.

(** ** Request state *)

Inductive conn_state := NoConn | Alive | Dead | Closed.
Inductive cursor_state := NoCursor | CursorOpen | CursorClosed.

(** Server-side log lines ([print]); the f-string arguments that matter are
    kept as fields. *)
Inductive log_line :=
| LogConnected                       (* "Successfully connected to MySQL database" *)
| LogAttemptFailed (attempt_no : nat) (* "Connection attempt {attempt + 1} failed: {e}" *)
| LogRetrying (delay : Z)            (* "Retrying in {retry_delay} seconds..." *)
| LogMaxRetries                      (* "Max retries reached. Could not connect to database." *)
| LogDatabaseError                   (* "Database error: {e}" *)
| LogInitialized.                    (* "Database initialized successfully!" *)

(** Calls made to the outside world, in order. *)
Inductive event :=
| EConnect (attempt : nat) (r : ConnectResult)
| ESleep (seconds : Z)
| EPrint (l : log_line)
| ECursor
| EExecute (sql : string) (params : list value)
| ECommit
| EFetchone (r : option (gmap string value))
| ECursorClose
| EConnClose.

Record St := mkSt {
  st_store : Store;
  st_session : gmap string value;
  st_flashes : list (string * string);
  st_trace : list event;
  st_conn : conn_state;
  st_cursor : cursor_state;
  st_pending : list User;
  st_results : list (gmap string value)
}.

(** The state in which a handler starts: nothing acquired, nothing logged. *)
Definition init_st (db : Store) (session : gmap string value) : St :=
  mkSt db session [] [] NoConn NoCursor [] [].

(** ** Exceptions and the handler monad *)

Inductive exn :=
| MySQLError                      (* mysql.connector.Error, not an IntegrityError *)
| IntegrityError                  (* mysql.connector.IntegrityError *)
| BadRequestKeyError (k : string) (* request.form[k] on a missing field *)
| KeyError (k : string)           (* d[k] on a missing key *)
| UnboundLocalError (v : string)  (* a local read before assignment *)
| TypeError.                      (* subscripting None *)

(** [except Error] catches [IntegrityError] as well (it is a subclass). *)
Definition is_mysql_error (e : exn) : bool :=
  match e with
  | MySQLError | IntegrityError => true
  | _ => false
  end.

Inductive result (A : Type) :=
| Ok (a : A)
| Raise (e : exn).
Arguments Ok {A} a.
Arguments Raise {A} e.

Definition M (A : Type) : Type := St -> result A * St.

Definition ret {A} (a : A) : M A := fun s => (Ok a, s).
Definition raise {A} (e : exn) : M A := fun s => (Raise e, s).
Definition bind {A B} (m : M A) (k : A -> M B) : M B :=
  fun s =>
    match m s with
    | (Ok a, s') => k a s'
    | (Raise e, s') => (Raise e, s')
    end.

Notation "x <- m ;; k" := (bind m (fun x => k))
  (at level 100, m at next level, right associativity).
Notation "m ;;; k" := (bind m (fun _ => k))
  (at level 100, right associativity).

(** [try: body  except ...: handler e]: [handler e = None] when no clause
    matches [e]. *)
Definition try_except {A} (body : M A) (handler : exn -> option (M A)) : M A :=
  fun s =>
    match body s with
    | (Ok a, s') => (Ok a, s')
    | (Raise e, s') =>
        match handler e with
        | Some h => h s'
        | None => (Raise e, s')
        end
    end.

(** [try: body  finally: fin]: [fin] runs on every exit of [body]; an
    exception raised by [fin] replaces the outcome of [body]. *)
Definition try_finally {A} (body : M A) (fin : M unit) : M A :=
  fun s =>
    let '(r, s') := body s in
    match fin s' with
    | (Ok _, s'') => (r, s'')
    | (Raise e, s'') => (Raise e, s'')
    end.

(** ** Primitive actions *)

Definition gets {A} (f : St -> A) : M A := fun s => (Ok (f s), s).
Definition modify (f : St -> St) : M unit := fun s => (Ok tt, f s).

Definition with_store (x : Store) (s : St) : St :=
  mkSt x (st_session s) (st_flashes s) (st_trace s) (st_conn s) (st_cursor s)
       (st_pending s) (st_results s).
Definition with_session (x : gmap string value) (s : St) : St :=
  mkSt (st_store s) x (st_flashes s) (st_trace s) (st_conn s) (st_cursor s)
       (st_pending s) (st_results s).
Definition with_flashes (x : list (string * string)) (s : St) : St :=
  mkSt (st_store s) (st_session s) x (st_trace s) (st_conn s) (st_cursor s)
       (st_pending s) (st_results s).
Definition with_trace (x : list event) (s : St) : St :=
  mkSt (st_store s) (st_session s) (st_flashes s) x (st_conn s) (st_cursor s)
       (st_pending s) (st_results s).
Definition with_conn (x : conn_state) (s : St) : St :=
  mkSt (st_store s) (st_session s) (st_flashes s) (st_trace s) x (st_cursor s)
       (st_pending s) (st_results s).
Definition with_cursor (x : cursor_state) (s : St) : St :=
  mkSt (st_store s) (st_session s) (st_flashes s) (st_trace s) (st_conn s) x
       (st_pending s) (st_results s).
Definition with_pending (x : list User) (s : St) : St :=
  mkSt (st_store s) (st_session s) (st_flashes s) (st_trace s) (st_conn s)
       (st_cursor s) x (st_results s).
Definition with_results (x : list (gmap string value)) (s : St) : St :=
  mkSt (st_store s) (st_session s) (st_flashes s) (st_trace s) (st_conn s)
       (st_cursor s) (st_pending s) x.

Definition emit (e : event) : M unit :=
  modify (fun s => with_trace (st_trace s ++ [e])%list s).

(** [print(...)] and [time.sleep(...)]. *)
Definition print (l : log_line) : M unit := emit (EPrint l).
Definition sleep (seconds : Z) : M unit := emit (ESleep seconds).

(** [flash(message, category)]. *)
Definition flash (message category : string) : M unit :=
  modify (fun s => with_flashes (st_flashes s ++ [(message, category)])%list s).

(** The connection object of the request; its state lives in [st_conn]. *)
Inductive Connection := MySQLConnection.

(** [mysql.connector.connect(...)], the [attempt]-th call of the request
    (counted from 0). *)
Definition connect (w : World) (attempt : nat) : M Connection :=
  emit (EConnect attempt (w_connect w attempt)) ;;;
  match w_connect w attempt with
  | Connected => modify (with_conn Alive) ;;; ret MySQLConnection
  | NotConnected => modify (with_conn Dead) ;;; ret MySQLConnection
  | ConnectError => raise MySQLError
  end.

(** [connection.is_connected()]. *)
Definition is_connected : M bool :=
  gets (fun s => match st_conn s with Alive => true | _ => false end).

(** [connection.cursor(...)]: needs a live connection. *)
Definition cursor : M unit :=
  ok <- is_connected ;;
  if ok then emit ECursor ;;; modify (with_cursor CursorOpen)
  else raise MySQLError.

(** A round trip to the server for call [c]: raises when the world injects
    a fault there; a lost connection also loses its open transaction. *)
Definition server_call (w : World) (c : db_call) : M unit :=
  match fault_at w c with
  | Some alive =>
      (if alive then ret tt
       else modify (fun s => with_pending [] (with_conn Dead s))) ;;;
      raise MySQLError
  | None => ret tt
  end.

(** [cursor.execute(sql, params)]. *)
Definition cursor_execute (w : World) (sql : string) (params : list value) : M unit :=
  emit (EExecute sql params) ;;;
  server_call w CallExecute ;;;
  s <- gets (fun s => s) ;;
  match run_statement (st_store s) (st_pending s) (w_now w) sql params with
  | Rows rs => modify (with_results rs)
  | Inserted u => modify (fun s => with_results [] (with_pending (st_pending s ++ [u])%list s))
  | NoResult => modify (with_results [])
  | SqlIntegrityError => raise IntegrityError
  | SqlOtherError => raise MySQLError
  end.

(** [connection.commit()]: the pending rows become part of the table. *)
Definition commit (w : World) : M unit :=
  emit ECommit ;;;
  server_call w CallCommit ;;;
  modify (fun s =>
    with_pending []
      (with_store (mkStore (users (st_store s) ++ st_pending s)%list
                           (next_id (st_store s) + Z.of_nat (length (st_pending s))))
                  s)).

(** [cursor.fetchone()]: the next row of the result set, or [None]. *)
Definition fetchone (w : World) : M (option (gmap string value)) :=
  server_call w CallFetchone ;;;
  rs <- gets st_results ;;
  match rs with
  | [] => emit (EFetchone None) ;;; ret None
  | r :: rs' => modify (with_results rs') ;;; emit (EFetchone (Some r)) ;;; ret (Some r)
  end.

(** [cursor.close()]; reading the local [cursor] before it was assigned
    raises [UnboundLocalError]. *)
Definition cursor_close : M unit :=
  c <- gets st_cursor ;;
  match c with
  | NoCursor => raise (UnboundLocalError "cursor")
  | _ => emit ECursorClose ;;; modify (with_cursor CursorClosed)
  end.

(** [connection.close()]: an uncommitted transaction is rolled back. *)
Definition connection_close : M unit :=
  emit EConnClose ;;;
  modify (fun s => with_pending [] (with_conn Closed s)).

(** ** Requests, sessions, responses *)

Inductive Method := GET | POST.

Record Request := mkRequest {
  method : Method;
  form : gmap string string
}.

Definition is_post (request : Request) : bool :=
  match method request with POST => true | GET => false end.

(** [request.form[k]]: a missing field raises (Flask answers 400). *)
Definition form_item (request : Request) (k : string) : M string :=
  match form request !! k with
  | Some v => ret v
  | None => raise (BadRequestKeyError k)
  end.

(** [request.form.get(k)]. *)
Definition form_get (request : Request) (k : string) : option string :=
  form request !! k.

(** Python's [not x] for [x] a string or [None]. *)
Definition py_not (x : option string) : bool :=
  match x with
  | None => true
  | Some v => String.eqb v ""
  end.

(** ['k' in session]. *)
Definition session_contains (k : string) : M bool :=
  gets (fun s => match st_session s !! k with Some _ => true | None => false end).

(** [session[k]]. *)
Definition session_get (k : string) : M value :=
  o <- gets (fun s => st_session s !! k) ;;
  match o with
  | Some v => ret v
  | None => raise (KeyError k)
  end.

(** [session[k] = v]. *)
Definition session_set (k : string) (v : value) : M unit :=
  modify (fun s => with_session (<[k := v]> (st_session s)) s).

(** [session.pop(k, None)]. *)
Definition session_pop (k : string) : M unit :=
  modify (fun s => with_session (delete k (st_session s)) s).

(** [row[k]] on a dictionary row. *)
Definition row_item (row : gmap string value) (k : string) : M value :=
  match row !! k with
  | Some v => ret v
  | None => raise (KeyError k)
  end.

Inductive Response :=
| render_template (template : string) (context : list (string * pyobj))
| redirect (endpoint : string)                  (* redirect(url_for(endpoint)) *)
| json_response (body : list (string * string)) (status : Z).

(** The value of [user] handed to a template: the fetched row or [None]. *)
Definition obj_of_row (user : option (gmap string value)) : pyobj :=
  match user with
  | Some row => ObjDict row
  | None => ObjValue VNone
  end.

(** The result of a block that may execute a [return]: [Some r] when it
    did, [None] when control falls through to the next statement. *)
Definition returned {A} (r : option A) (rest : M A) : M A :=
  match r with
  | Some a => ret a
  | None => rest
  end.

(** [user[k]] where [user] is the result of [fetchone()]: subscripting
    [None] raises [TypeError]. *)
Definition subscript (user : option (gmap string value)) (k : string) : M value :=
  match user with
  | Some row => row_item row k
  | None => raise TypeError
  end.

(** Truth value of [user]: a fetched row is a non-empty dictionary. *)
Definition truthy (user : option (gmap string value)) : bool :=
  match user with Some _ => true | None => false end.

(** The string held by a column or form value ([password] is
    VARCHAR NOT NULL, so [user['password']] is always a [str]). *)
Definition as_str (v : value) : string :=
  match v with VStr s => s | _ => "" end.

(** The string of a form field already known to be present. *)
Definition the (x : option string) : string :=
  match x with Some v => v | None => "" end.

(** The clean-up block of app.py's handlers:
    [if connection.is_connected(): cursor.close(); connection.close()]. *)
Definition close_if_connected : M unit :=
  ok <- is_connected ;;
  if ok then cursor_close ;;; connection_close else ret tt.

(** * app.py: the environment-configured variant

    [DB_CONFIG] and [app.secret_key] are read from the environment when the
    module is loaded; they only feed [mysql.connector.connect] and Flask's
    cookie signing, whose outcomes are the [World]'s here. *)

Module App.
Section Handlers.

(** werkzeug.security, external to the repository:
    [generate_password_hash salt password] (the salt is drawn at random by
    the library) and [check_password_hash pwhash password]. *)
Variable generate_password_hash : string -> string -> string.
Variable check_password_hash : string -> string -> bool.

(** The [for attempt in range(max_retries)] loop of [get_db_connection],
    from iteration [attempt] on, with [todo] iterations left.  The body
    yields [Some r] when it executes [return r]. *)
Fixpoint get_db_connection_loop (w : World) (max_retries : nat) (retry_delay : Z)
    (todo attempt : nat) : M (option Connection) :=
  match todo with
  | O => ret None
  | S todo' =>
      r <- try_except
             (connection <- connect w attempt ;;
              ok <- is_connected ;;
              if ok then print LogConnected ;;; ret (Some (Some connection))
              else ret None)
             (fun e =>
                if is_mysql_error e then Some (
                  print (LogAttemptFailed (attempt + 1)) ;;;
                  if (attempt <? max_retries - 1)%nat then
                    print (LogRetrying retry_delay) ;;;
                    sleep retry_delay ;;;
                    ret None
                  else
                    print LogMaxRetries ;;;
                    ret (Some None))
                else None) ;;
      match r with
      | Some result => ret result
      | None => get_db_connection_loop w max_retries retry_delay todo' (S attempt)
      end
  end.

(** [get_db_connection(max_retries=5, retry_delay=5)], app.py lines 39-74. *)
Definition get_db_connection (w : World) (max_retries : nat) (retry_delay : Z)
    : M (option Connection) :=
  get_db_connection_loop w max_retries retry_delay max_retries 0.

(** [index], app.py lines 77-89. *)
Definition index : M Response :=
  logged_in <- session_contains "user_id" ;;
  if logged_in then
    username <- session_get "username" ;;
    ret (render_template "home.html" [("username", ObjValue username)])
  else ret (redirect "login").

(** [register], app.py lines 92-156. *)
Definition register (w : World) (request : Request) : M Response :=
  if is_post request then
    username <- form_item request "username" ;;
    email <- form_item request "email" ;;
    password <- form_item request "password" ;;
    let hashed_password := generate_password_hash (w_salt w) password in
    connection <- get_db_connection w 5 5 ;;
    match connection with
    | None =>
        flash "Database connection failed. Please try again later." "danger" ;;;
        ret (render_template "register.html" [])
    | Some _ =>
        r <- try_finally
               (try_except
                  (cursor ;;;
                   cursor_execute w sql_insert_user
                     [VStr username; VStr email; VStr hashed_password] ;;;
                   commit w ;;;
                   flash "Registration successful! Please login." "success" ;;;
                   ret (Some (redirect "login")))
                  (fun e =>
                     match e with
                     | IntegrityError => Some (
                         flash "Username or email already exists!" "danger" ;;;
                         ret None)
                     | MySQLError => Some (
                         print LogDatabaseError ;;;
                         flash "An error occurred. Please try again." "danger" ;;;
                         ret None)
                     | _ => None
                     end))
               close_if_connected ;;
        returned r (ret (render_template "register.html" []))
    end
  else ret (render_template "register.html" []).

(** [login], app.py lines 159-200. *)
Definition login (w : World) (request : Request) : M Response :=
  if is_post request then
    let email := form_get request "email" in
    let password := form_get request "password" in
    if py_not email || py_not password then
      flash "Email and password are required!" "danger" ;;;
      ret (render_template "login.html" [])
    else
      connection <- get_db_connection w 5 5 ;;
      match connection with
      | None =>
          flash "Database connection failed. Please try again later." "danger" ;;;
          ret (render_template "login.html" [])
      | Some _ =>
          r <- try_finally
                 (try_except
                    (cursor ;;;
                     cursor_execute w sql_select_by_email [VStr (the email)] ;;;
                     user <- fetchone w ;;
                     ok <- (if truthy user then
                              h <- subscript user "password" ;;
                              ret (check_password_hash (as_str h) (the password))
                            else ret false) ;;
                     if ok then
                       v <- subscript user "id" ;; session_set "user_id" v ;;;
                       v <- subscript user "username" ;; session_set "username" v ;;;
                       v <- subscript user "email" ;; session_set "email" v ;;;
                       flash "Login successful!" "success" ;;;
                       ret (Some (redirect "index"))
                     else
                       flash "Invalid email or password!" "danger" ;;;
                       ret None)
                    (fun e =>
                       if is_mysql_error e then Some (
                         print LogDatabaseError ;;;
                         flash "An error occurred. Please try again." "danger" ;;;
                         ret None)
                       else None))
                 close_if_connected ;;
          returned r (ret (render_template "login.html" []))
      end
  else ret (render_template "login.html" []).

(** [logout], app.py lines 204-218. *)
Definition logout : M Response :=
  session_pop "user_id" ;;;
  session_pop "username" ;;;
  session_pop "email" ;;;
  flash "You have been logged out." "info" ;;;
  ret (redirect "login").

(** [dashboard], app.py lines 221-264. *)
Definition dashboard (w : World) : M Response :=
  logged_in <- session_contains "user_id" ;;
  if negb logged_in then
    flash "Please login to access dashboard." "warning" ;;;
    ret (redirect "login")
  else
    connection <- get_db_connection w 5 5 ;;
    match connection with
    | None =>
        flash "Database connection failed." "danger" ;;;
        ret (redirect "index")
    | Some _ =>
        try_finally
          (try_except
             (cursor ;;;
              user_id <- session_get "user_id" ;;
              cursor_execute w sql_select_profile [user_id] ;;;
              user <- fetchone w ;;
              ret (render_template "dashboard.html" [("user", obj_of_row user)]))
             (fun e =>
                if is_mysql_error e then Some (
                  print LogDatabaseError ;;;
                  flash "An error occurred. Please try again." "danger" ;;;
                  ret (redirect "index"))
                else None))
          close_if_connected
    end.

(** [health], app.py lines 267-273. *)
Definition health : M Response :=
  ret (json_response [("status", "healthy"); ("service", "flask-app")] 200).

End Handlers.
End App.

(** * app1.py: the variant with hardcoded settings *)

Module App1.

(** The module-level [db_config] dictionary, app1.py lines 26-31. *)
Record DbConfig := mkDbConfig {
  host : string;
  user : string;
  password : string;
  database : string
}.

Definition db_config : DbConfig :=
  mkDbConfig "localhost" "root" "root" "flask_auth_db".

Section Handlers.

Variable generate_password_hash : string -> string -> string.
Variable check_password_hash : string -> string -> bool.

(** [get_db_connection], app1.py lines 35-38: one call to [connect], whose
    exception is not caught and whose result is not inspected. *)
Definition get_db_connection (w : World) : M Connection :=
  connection <- connect w 0 ;;
  ret connection.

(** [init_db], app1.py lines 42-81, reading the configuration [cfg]
    (the module global [db_config] in the source).  The first two
    statements are f-strings that splice [cfg]'s database name into the
    text. *)
Definition init_db (cfg : DbConfig) (w : World) : M unit :=
  connect w 0 ;;;
  cursor ;;;
  cursor_execute w (sql_create_database_prefix ++ database cfg) [] ;;;
  cursor_execute w (sql_use_prefix ++ database cfg) [] ;;;
  cursor_execute w sql_create_table [] ;;;
  commit w ;;;
  cursor_close ;;;
  connection_close ;;;
  print LogInitialized.

(** [index], app1.py lines 85-92. *)
Definition index : M Response :=
  logged_in <- session_contains "user_id" ;;
  if logged_in then
    username <- session_get "username" ;;
    ret (render_template "home.html" [("username", ObjValue username)])
  else ret (redirect "login").

(** [register], app1.py lines 96-144. *)
Definition register (w : World) (request : Request) : M Response :=
  if is_post request then
    username <- form_item request "username" ;;
    email <- form_item request "email" ;;
    password <- form_item request "password" ;;
    let hashed_password := generate_password_hash (w_salt w) password in
    get_db_connection w ;;;
    cursor ;;;
    r <- try_finally
           (try_except
              (cursor_execute w sql_insert_user
                 [VStr username; VStr email; VStr hashed_password] ;;;
               commit w ;;;
               flash "Registration successful! Please login." "success" ;;;
               ret (Some (redirect "login")))
              (fun e =>
                 match e with
                 | IntegrityError => Some (
                     flash "Username or email already exists!" "danger" ;;;
                     ret None)
                 | _ => None
                 end))
           (cursor_close ;;; connection_close) ;;
    returned r (ret (render_template "register.html" []))
  else ret (render_template "register.html" []).

(** [login], app1.py lines 148-191. *)
Definition login (w : World) (request : Request) : M Response :=
  if is_post request then
    username <- form_item request "username" ;;
    password <- form_item request "password" ;;
    get_db_connection w ;;;
    cursor ;;;
    cursor_execute w sql_select_by_username [VStr username] ;;;
    user <- fetchone w ;;
    cursor_close ;;;
    connection_close ;;;
    ok <- (if truthy user then
             h <- subscript user "password" ;;
             ret (check_password_hash (as_str h) password)
           else ret false) ;;
    if ok then
      v <- subscript user "id" ;; session_set "user_id" v ;;;
      v <- subscript user "username" ;; session_set "username" v ;;;
      flash "Login successful!" "success" ;;;
      ret (redirect "index")
    else
      flash "Invalid username or password!" "danger" ;;;
      ret (render_template "login.html" [])
  else ret (render_template "login.html" []).

(** [logout], app1.py lines 195-206. *)
Definition logout : M Response :=
  session_pop "user_id" ;;;
  session_pop "username" ;;;
  flash "You have been logged out." "info" ;;;
  ret (redirect "login").

(** [dashboard], app1.py lines 209-231. *)
Definition dashboard (w : World) : M Response :=
  logged_in <- session_contains "user_id" ;;
  if negb logged_in then
    flash "Please login to access dashboard." "warning" ;;;
    ret (redirect "login")
  else
    get_db_connection w ;;;
    cursor ;;;
    user_id <- session_get "user_id" ;;
    cursor_execute w sql_select_profile [user_id] ;;;
    user <- fetchone w ;;
    cursor_close ;;;
    connection_close ;;;
    ret (render_template "dashboard.html" [("user", obj_of_row user)]).

End Handlers.
End App1.

(** * Concrete inputs used in the examples *)

(** A stand-in for werkzeug's hasher, for running the handlers on concrete
    inputs only: the "hash" is the salt, a dollar sign and the plaintext. *)
Definition demo_generate (salt password : string) : string :=
  salt ++ "$" ++ password.
Definition demo_check (pwhash password : string) : bool :=
  String.eqb pwhash ("s1$" ++ password).

Definition alice : User := mkUser 1 "alice" "alice@x.com" "s1$pw1" 1000.
Definition db_alice : Store := mkStore [alice] 2.
Definition db_empty : Store := mkStore [] 1.

(** The server answers the first [connect] and no statement fails. *)
Definition world_ok : World := mkWorld (fun _ => Connected) None 2000 "s1".
(** The server is down: every [connect] raises. *)
Definition world_down : World := mkWorld (fun _ => ConnectError) None 2000 "s1".
(** The server is up but [cursor.execute] raises (connection stays up). *)
Definition world_exec_fault : World :=
  mkWorld (fun _ => Connected) (Some (CallExecute, true)) 2000 "s1".

Definition session_alice : gmap string value :=
  <["user_id" := VInt 1]> (<["username" := VStr "alice"]> ∅).

Definition post (fields : list (string * string)) : Request :=
  mkRequest POST (list_to_map fields).

Definition req_wrong_password : Request :=
  post [("username", "alice"); ("email", "alice@x.com"); ("password", "wrong")].

Definition fields_alice : gmap string string :=
  list_to_map [("username", "alice"); ("email", "alice@x.com"); ("password", "pw1")].

Definition fields_no_password : gmap string string :=
  list_to_map [("email", "alice@x.com"); ("password", "")].

Definition other_config : App1.DbConfig :=
  App1.mkDbConfig "localhost" "root" "root" "shop".

Definition fields_bob : gmap string string :=
  list_to_map [("username", "bob"); ("email", "bob@x.com"); ("password", "pw2")].

(** The first [connect] returns a connection that is not connected, the
    second a live one. *)
Definition world_second_live : World :=
  mkWorld (fun n => match n with O => NotConnected | _ => Connected end)
          None 2000 "s1".

Definition fields_no_email : gmap string string :=
  list_to_map [("username", "bob"); ("password", "pw2")].

(** * Vocabulary of the properties *)

(** Does one of the [todo] calls to [connect] numbered from [attempt] on
    return a live connection? *)
Fixpoint connects_within (w : World) (todo attempt : nat) : bool :=
  match todo with
  | O => false
  | S todo' =>
      match w_connect w attempt with
      | Connected => true
      | _ => connects_within w todo' (S attempt)
      end
  end.

(** Events of the connection phase: they reach no table. *)
Definition quiet_event (e : event) : Prop :=
  match e with
  | EConnect _ _ | ESleep _ | EPrint _ => True
  | _ => False
  end.

(** The statement texts passed to [cursor.execute], in order. *)
Fixpoint sql_texts (tr : list event) : list string :=
  match tr with
  | [] => []
  | EExecute sql _ :: tr' => sql :: sql_texts tr'
  | _ :: tr' => sql_texts tr'
  end.

(** The number of calls to [connect] and the delays slept, in order. *)
Fixpoint connect_attempts (tr : list event) : nat :=
  match tr with
  | [] => 0
  | EConnect _ _ :: tr' => S (connect_attempts tr')
  | _ :: tr' => connect_attempts tr'
  end.

Fixpoint delays (tr : list event) : list Z :=
  match tr with
  | [] => []
  | ESleep d :: tr' => d :: delays tr'
  | _ :: tr' => delays tr'
  end.


(** The columns of the profile projection. *)
Definition profile_columns : gset string :=
  {[ "id"; "username"; "email"; "created_at" ]}.

(** Nothing acquired by the request is still held: the connection is not
    left open, and a cursor is left unclosed only on a connection that was
    lost ([is_connected()] false). *)
Definition released (s : St) : Prop :=
  st_conn s <> Alive /\ (st_cursor s = CursorOpen -> st_conn s = Dead).

(** What a client and the table can observe of a handled request. *)
Definition outcome {A} (x : result A * St)
    : result A * Store * gmap string value * list (string * string) :=
  (fst x, st_store (snd x), st_session (snd x), st_flashes (snd x)).

(** The dashboard answers with a profile projection. *)
Definition returns_profile (r : result Response) : Prop :=
  exists row,
    r = Ok (render_template "dashboard.html" [("user", ObjDict row)])
    /\ dom row = profile_columns.

(** The two flash messages for a login that did not authenticate. *)
Definition invalid_credentials_app : list (string * string) :=
  [("Invalid email or password!", "danger")].
Definition invalid_credentials_app1 : list (string * string) :=
  [("Invalid username or password!", "danger")].

(** The cases of a login submission. *)
Inductive login_case :=
| FieldsMissing          (* a required field is missing or empty *)
| StoreUnavailable       (* no connection after the retries *)
| StoreFault             (* the lookup raised a store error *)
| Rejected               (* lookup miss, or hash mismatch *)
| Accepted (u : User).   (* the lookup found [u] and the hash verifies *)

(** Does the lookup of a login ([execute], then [fetchone]) fail? *)
Definition lookup_fault (w : World) : bool :=
  match fault_at w CallExecute, fault_at w CallFetchone with
  | None, None => false
  | _, _ => true
  end.

(** The user a lookup result authenticates for password [p]: the first row
    found, provided [check] accepts [p] against its stored hash. *)
Definition verified_user (check : string -> string -> bool)
    (found : list User) (p : string) : option User :=
  match found with
  | u :: _ => if check (u_password u) p then Some u else None
  | [] => None
  end.

(** The case of a login submission to app.py, read off the form, the world
    and the table. *)
Definition login_case_app (check : string -> string -> bool) (w : World)
    (fields : gmap string string) (db : Store) : login_case :=
  if py_not (fields !! "email") || py_not (fields !! "password") then FieldsMissing
  else if negb (connects_within w 5 0) then StoreUnavailable
  else if lookup_fault w then StoreFault
  else
    match verified_user check (find_by_email (users db) (the (fields !! "email")))
            (the (fields !! "password")) with
    | Some u => Accepted u
    | None => Rejected
    end.

(** What app.py's login answers in each case: response, table, session and
    flashed messages. *)
Definition login_outcome_app (db : Store) (sess : gmap string value)
    (c : login_case)
    : result Response * Store * gmap string value * list (string * string) :=
  match c with
  | FieldsMissing =>
      (Ok (render_template "login.html" []), db, sess,
       [("Email and password are required!", "danger")])
  | StoreUnavailable =>
      (Ok (render_template "login.html" []), db, sess,
       [("Database connection failed. Please try again later.", "danger")])
  | StoreFault =>
      (Ok (render_template "login.html" []), db, sess,
       [("An error occurred. Please try again.", "danger")])
  | Rejected =>
      (Ok (render_template "login.html" []), db, sess, invalid_credentials_app)
  | Accepted u =>
      (Ok (redirect "index"), db,
       <["email" := VStr (u_email u)]>
         (<["username" := VStr (u_username u)]>
            (<["user_id" := VInt (u_id u)]> sess)),
       [("Login successful!", "success")])
  end.

(** What app1.py's login answers once the lookup has run: [Some u] when it
    authenticated [u], [None] otherwise. *)
Definition login_outcome_app1 (db : Store) (sess : gmap string value)
    (v : option User)
    : result Response * Store * gmap string value * list (string * string) :=
  match v with
  | Some u =>
      (Ok (redirect "index"), db,
       <["username" := VStr (u_username u)]>
         (<["user_id" := VInt (u_id u)]> sess),
       [("Login successful!", "success")])
  | None =>
      (Ok (render_template "login.html" []), db, sess, invalid_credentials_app1)
  end.

(** No two rows share a username, and no two share an email. *)
Definition unique_users (db : Store) : Prop :=
  NoDup (u_username <$> users db) /\ NoDup (u_email <$> users db).

(** The row a successful registration adds. *)
Definition new_user (gen : string -> string -> string) (w : World) (db : Store)
    (n e p : string) : User :=
  mkUser (next_id db) n e (gen (w_salt w) p) (w_now w).

(** A form holding the three fields of the registration page. *)
Definition form3 (n e p : string) : gmap string string :=
  <["username" := n]> (<["email" := e]> (<["password" := p]> ∅)).

(** The trace of [n] calls numbered from [attempt] on that each returned a
    connection which is not connected. *)
Fixpoint skipped_trace (attempt n : nat) : list event :=
  match n with
  | O => []
  | S n' => EConnect attempt NotConnected :: skipped_trace (S attempt) n'
  end.

(** Ids are distinct and below the AUTO_INCREMENT counter. *)
Definition store_wf (db : Store) : Prop :=
  NoDup (u_id <$> users db) /\ forall u, u ∈ users db -> u_id u < next_id db.

(** A session that holds [user_id] holds the id of a row of the table and,
    under [username], that row's username. *)
Definition session_consistent (db : Store) (sess : gmap string value) : Prop :=
  forall v, sess !! "user_id" = Some v ->
    exists u, u ∈ users db /\ v = VInt (u_id u)
              /\ sess !! "username" = Some (VStr (u_username u)).

Definition state_ok (x : Store * gmap string value) : Prop :=
  store_wf (fst x) /\ unique_users (fst x) /\ session_consistent (fst x) (snd x).

(** What persists from one request to the next: the table, and the session
    carried by the client's cookie. *)
Definition after {A} (x : result A * St) : Store * gmap string value :=
  (st_store (snd x), st_session (snd x)).

(** One request to one of the routes of app.py ([@app.route] lines 77, 92,
    159, 204, 221, 267), in any world. *)
Inductive step_app (gen : string -> string -> string)
    (chk : string -> string -> bool)
    : Store * gmap string value -> Store * gmap string value -> Prop :=
| step_app_index db sess :
    step_app gen chk (db, sess) (after (App.index (init_st db sess)))
| step_app_register w req db sess :
    step_app gen chk (db, sess) (after (App.register gen w req (init_st db sess)))
| step_app_login w req db sess :
    step_app gen chk (db, sess) (after (App.login chk w req (init_st db sess)))
| step_app_logout db sess :
    step_app gen chk (db, sess) (after (App.logout (init_st db sess)))
| step_app_dashboard w db sess :
    step_app gen chk (db, sess) (after (App.dashboard w (init_st db sess)))
| step_app_health db sess :
    step_app gen chk (db, sess) (after (App.health (init_st db sess))).

(** One request to one of the routes of app1.py ([@app.route] lines 85, 96,
    148, 195, 209), in any world. *)
Inductive step_app1 (gen : string -> string -> string)
    (chk : string -> string -> bool)
    : Store * gmap string value -> Store * gmap string value -> Prop :=
| step_app1_index db sess :
    step_app1 gen chk (db, sess) (after (App1.index (init_st db sess)))
| step_app1_register w req db sess :
    step_app1 gen chk (db, sess) (after (App1.register gen w req (init_st db sess)))
| step_app1_login w req db sess :
    step_app1 gen chk (db, sess) (after (App1.login chk w req (init_st db sess)))
| step_app1_logout db sess :
    step_app1 gen chk (db, sess) (after (App1.logout (init_st db sess)))
| step_app1_dashboard w db sess :
    step_app1 gen chk (db, sess) (after (App1.dashboard w (init_st db sess))).

(** The states reached from [init] by any sequence of requests. *)
Inductive reachable {X : Type} (step : X -> X -> Prop) (init : X) : X -> Prop :=
| reach_init : reachable step init init
| reach_step y z : reachable step init y -> step y z -> reachable step init z.

(** The statements passed to [cursor.execute] with their parameters. *)
Fixpoint statements (tr : list event) : list (string * list value) :=
  match tr with
  | [] => []
  | EExecute sql params :: tr' => (sql, params) :: statements tr'
  | _ :: tr' => statements tr'
  end.

(** * Proof tools *)

Arguments App.get_db_connection : simpl never.

Ltac unfold_st :=
  unfold with_store, with_session, with_flashes, with_trace, with_conn,
    with_cursor, with_pending, with_results in *;
  cbn [st_store st_session st_flashes st_trace st_conn st_cursor st_pending
       st_results] in *.

Ltac run_prims :=
  unfold returned, close_if_connected, cursor_execute, commit, fetchone,
    cursor, cursor_close, connection_close, server_call, fault_at,
    session_contains, session_get, session_set, session_pop, form_item,
    form_get, subscript, row_item, try_except, try_finally, bind, connect,
    emit, modify, is_connected, gets, print, sleep, flash, ret, raise;
  cbn -[Nat.ltb String.eqb run_statement row_all row_profile].

(** * The connection phase *)

Lemma get_db_connection_loop_spec w max d todo attempt s :
  (todo + attempt = max)%nat ->
  exists tr c,
    Forall quiet_event tr /\
    App.get_db_connection_loop w max d todo attempt s =
      (Ok (if connects_within w todo attempt then Some MySQLConnection else None),
       with_conn c (with_trace (st_trace s ++ tr)%list s)) /\
    (if connects_within w todo attempt then c = Alive
     else c = st_conn s \/ c = Dead).
Proof.
  revert attempt s. induction todo as [|todo IH]; intros attempt s Hinv.
  - exists [], (st_conn s). split; [constructor|]. split; [|by left].
    cbn. rewrite app_nil_r. by destruct s.
  - cbn [App.get_db_connection_loop connects_within].
    unfold bind at 1. run_prims.
    destruct (w_connect w attempt) eqn:Hw; cbn -[Nat.ltb].
    + exists [EConnect attempt Connected; EPrint LogConnected], Alive.
      split; [repeat constructor|].
      split; [|reflexivity]. unfold_st. by rewrite <- app_assoc.
    + match goal with |- context [App.get_db_connection_loop _ _ _ _ _ ?s1] =>
        destruct (IH (S attempt) s1) as (tr & c & Hq & Heq & Hc); [lia|] end.
      unfold_st. rewrite Heq.
      exists (EConnect attempt NotConnected :: tr), c.
      split; [constructor; [exact I|done]|].
      rewrite <- app_assoc. cbn. split; [reflexivity|].
      destruct (connects_within w todo (S attempt)); [done|].
      destruct Hc; by right.
    + destruct (attempt <? max - 1)%nat eqn:Hlt; cbn.
      * match goal with |- context [App.get_db_connection_loop _ _ _ _ _ ?s1] =>
          destruct (IH (S attempt) s1) as (tr & c & Hq & Heq & Hc); [lia|] end.
        unfold_st. rewrite Heq.
        exists (EConnect attempt ConnectError
                  :: EPrint (LogAttemptFailed (attempt + 1))
                  :: EPrint (LogRetrying d) :: ESleep d :: tr), c.
        split; [repeat (constructor; [exact I|]); done|].
        repeat rewrite <- app_assoc. cbn. split; [reflexivity|]. exact Hc.
      * apply Nat.ltb_ge in Hlt. assert (todo = 0)%nat as -> by lia. cbn.
        exists [EConnect attempt ConnectError;
                EPrint (LogAttemptFailed (attempt + 1)); EPrint LogMaxRetries],
               (st_conn s).
        split; [repeat constructor|].
        unfold_st. repeat rewrite <- app_assoc. cbn.
        split; [by destruct s|by left].
Qed.

Lemma get_db_connection_spec w max d s :
  exists tr c,
    Forall quiet_event tr /\
    App.get_db_connection w max d s =
      (Ok (if connects_within w max 0 then Some MySQLConnection else None),
       with_conn c (with_trace (st_trace s ++ tr)%list s)) /\
    (if connects_within w max 0 then c = Alive
     else c = st_conn s \/ c = Dead).
Proof. apply get_db_connection_loop_spec. lia. Qed.

Lemma sql_texts_app tr1 tr2 :
  sql_texts (tr1 ++ tr2) = (sql_texts tr1 ++ sql_texts tr2)%list.
Proof.
  induction tr1 as [|e tr1 IH]; [reflexivity|].
  destruct e; cbn; rewrite ?IH; reflexivity.
Qed.

Lemma sql_texts_quiet tr : Forall quiet_event tr -> sql_texts tr = [].
Proof.
  induction 1 as [|e tr He _ IH]; [reflexivity|].
  destruct e; cbn in *; try contradiction; exact IH.
Qed.


Ltac use_conn_spec :=
  match goal with
  | |- context [App.get_db_connection ?w ?m ?d ?s0] =>
      let tr := fresh "tr" in
      let c := fresh "c" in
      let Hq := fresh "Hq" in
      let Heq := fresh "Heq" in
      let Hc := fresh "Hcs" in
      destruct (get_db_connection_spec w m d s0) as (tr & c & Hq & Heq & Hc);
      rewrite Heq; clear Heq
  end.

(** * The server side of the four statements *)

Lemma run_select_profile db pending now i :
  run_statement db pending now sql_select_profile [VInt i] =
    Rows (row_profile <$> find_by_id (users db ++ pending) i).
Proof. reflexivity. Qed.

Lemma run_select_by_email db pending now e :
  run_statement db pending now sql_select_by_email [VStr e] =
    Rows (row_all <$> find_by_email (users db ++ pending) e).
Proof. reflexivity. Qed.

Lemma run_select_by_username db pending now n :
  run_statement db pending now sql_select_by_username [VStr n] =
    Rows (row_all <$> find_by_username (users db ++ pending) n).
Proof. reflexivity. Qed.

Lemma run_insert_user db pending now n e p :
  run_statement db pending now sql_insert_user [VStr n; VStr e; VStr p] =
    if violates_unique (users db ++ pending) n e then SqlIntegrityError
    else Inserted (mkUser (next_id db + Z.of_nat (length pending)) n e p now).
Proof. reflexivity. Qed.

Ltac run_sql :=
  rewrite ?run_select_profile, ?run_select_by_email, ?run_select_by_username,
    ?run_insert_user, ?app_nil_r.

Lemma profile_row_columns u : dom (row_profile u) = profile_columns.
Proof.
  unfold row_profile, profile_columns.
  rewrite !dom_insert_L, dom_empty_L. set_solver.
Qed.

Lemma profile_row_lookup u :
  row_profile u !! "id" = Some (VInt (u_id u)) /\
  row_profile u !! "username" = Some (VStr (u_username u)) /\
  row_profile u !! "email" = Some (VStr (u_email u)) /\
  row_profile u !! "created_at" = Some (VInt (u_created_at u)) /\
  row_profile u !! "password" = None.
Proof. unfold row_profile. repeat split; by simplify_map_eq. Qed.

Lemma all_row_lookup u :
  row_all u !! "id" = Some (VInt (u_id u)) /\
  row_all u !! "username" = Some (VStr (u_username u)) /\
  row_all u !! "email" = Some (VStr (u_email u)) /\
  row_all u !! "password" = Some (VStr (u_password u)).
Proof. unfold row_all. repeat split; by simplify_map_eq. Qed.

Lemma find_by_id_head rows i u rest :
  find_by_id rows i = u :: rest -> u_id u = i.
Proof.
  intros H. assert (u ∈ find_by_id rows i) as Hin by (rewrite H; left).
  unfold find_by_id in Hin. apply list_elem_of_filter in Hin. tauto.
Qed.

(** * The dashboard *)

Lemma dashboard_anonymous w s :
  st_session s !! "user_id" = None ->
  App.dashboard w s =
    (Ok (redirect "login"),
     with_flashes (st_flashes s ++ [("Please login to access dashboard.", "warning")])%list s)
  /\ App1.dashboard w s =
    (Ok (redirect "login"),
     with_flashes (st_flashes s ++ [("Please login to access dashboard.", "warning")])%list s).
Proof.
  intros Hs. unfold App.dashboard, App1.dashboard. run_prims. rewrite Hs. done.
Qed.

Lemma app_dashboard_profile w db sess i u rest :
  sess !! "user_id" = Some (VInt i) ->
  connects_within w 5 0 = true -> w_fault w = None ->
  find_by_id (users db) i = u :: rest ->
  fst (App.dashboard w (init_st db sess)) =
    Ok (render_template "dashboard.html" [("user", ObjDict (row_profile u))]).
Proof.
  intros Hs Hc Hf Hu.
  unfold App.dashboard. run_prims. rewrite Hs. cbn [negb].
  use_conn_spec. rewrite Hc in *. subst.
  rewrite Hf. cbn -[run_statement]. rewrite Hs. cbn -[run_statement].
  run_sql. rewrite Hu. reflexivity.
Qed.

Lemma app1_dashboard_profile w db sess i u rest :
  sess !! "user_id" = Some (VInt i) ->
  w_connect w 0 = Connected -> w_fault w = None ->
  find_by_id (users db) i = u :: rest ->
  fst (App1.dashboard w (init_st db sess)) =
    Ok (render_template "dashboard.html" [("user", ObjDict (row_profile u))]).
Proof.
  intros Hs Hc Hf Hu.
  unfold App1.dashboard, App1.get_db_connection. run_prims. rewrite Hs. cbn [negb].
  rewrite Hc, Hf. cbn -[run_statement]. rewrite Hs. cbn -[run_statement].
  run_sql. rewrite Hu. reflexivity.
Qed.

Ltac finish_rows :=
  cbn -[row_profile];
  first
    [ discriminate
    | let Hin := fresh "Hin" in
      intros [= <- <-] [Hin|[]];
      first [ discriminate Hin
            | injection Hin as <- <-; apply profile_row_columns ] ].

Lemma app_dashboard_rows w db sess tpl ctx k row :
  fst (App.dashboard w (init_st db sess)) = Ok (render_template tpl ctx) ->
  In (k, ObjDict row) ctx -> dom row = profile_columns.
Proof.
  unfold App.dashboard. run_prims.
  destruct (sess !! "user_id") as [v|] eqn:Hs; cbn [negb]; [|discriminate].
  use_conn_spec. destruct (connects_within w 5 0); [subst|discriminate].
  cbn -[run_statement]. rewrite Hs.
  destruct (w_fault w) as [[[] []]|]; cbn -[run_statement]; try discriminate.
  all: destruct v as [|i|]; cbn -[row_profile]; try discriminate; run_sql;
    try finish_rows.
  all: destruct (find_by_id (users db) i) as [|u rest]; finish_rows.
Qed.

Lemma app1_dashboard_rows w db sess tpl ctx k row :
  fst (App1.dashboard w (init_st db sess)) = Ok (render_template tpl ctx) ->
  In (k, ObjDict row) ctx -> dom row = profile_columns.
Proof.
  unfold App1.dashboard, App1.get_db_connection. run_prims.
  destruct (sess !! "user_id") as [v|] eqn:Hs; cbn [negb]; [|discriminate].
  destruct (w_connect w 0); cbn -[run_statement]; try discriminate.
  rewrite Hs.
  destruct (w_fault w) as [[[] []]|]; cbn -[run_statement]; try discriminate.
  all: destruct v as [|i|]; cbn -[row_profile]; try discriminate; run_sql;
    try finish_rows.
  all: destruct (find_by_id (users db) i) as [|u rest]; finish_rows.
Qed.

(** C1 (as amended).  A dashboard request without [user_id] in the session
    is answered by a redirect to the login view, in both variants, and
    touches nothing but the flash list: no connection, no statement.  A
    dashboard request with [user_id] bound, for which the connection is
    acquired, no store call fails and the table holds a row with that id,
    is answered with the projection of that row on id, username, email and
    created_at, without the password column.  And whatever the world does,
    a row handed to a template by the dashboard has exactly these four
    columns. *)
Theorem dashboard_protected_access (w : World) (db : Store)
    (sess : gmap string value) :
  (sess !! "user_id" = None ->
     App.dashboard w (init_st db sess) =
       (Ok (redirect "login"),
        with_flashes [("Please login to access dashboard.", "warning")]
          (init_st db sess))
     /\ App1.dashboard w (init_st db sess) =
       (Ok (redirect "login"),
        with_flashes [("Please login to access dashboard.", "warning")]
          (init_st db sess)))
  /\ (forall i u rest,
        sess !! "user_id" = Some (VInt i) ->
        w_fault w = None ->
        find_by_id (users db) i = u :: rest ->
        (connects_within w 5 0 = true ->
           fst (App.dashboard w (init_st db sess)) =
             Ok (render_template "dashboard.html" [("user", ObjDict (row_profile u))]))
        /\ (w_connect w 0 = Connected ->
           fst (App1.dashboard w (init_st db sess)) =
             Ok (render_template "dashboard.html" [("user", ObjDict (row_profile u))]))
        /\ u_id u = i
        /\ row_profile u !! "id" = Some (VInt (u_id u))
        /\ row_profile u !! "username" = Some (VStr (u_username u))
        /\ row_profile u !! "email" = Some (VStr (u_email u))
        /\ row_profile u !! "created_at" = Some (VInt (u_created_at u))
        /\ row_profile u !! "password" = None)
  /\ (forall tpl ctx k row,
        fst (App.dashboard w (init_st db sess)) = Ok (render_template tpl ctx)
        \/ fst (App1.dashboard w (init_st db sess)) = Ok (render_template tpl ctx) ->
        In (k, ObjDict row) ctx ->
        dom row = profile_columns /\ row !! "password" = None).
Proof.
  split; [|split].
  - intros Hs. apply (dashboard_anonymous w (init_st db sess) Hs).
  - intros i u rest Hs Hf Hu.
    split; [intros Hc; by eapply app_dashboard_profile|].
    split; [intros Hc; by eapply app1_dashboard_profile|].
    split; [by eapply find_by_id_head|]. apply profile_row_lookup.
  - intros tpl ctx k row H Hin.
    assert (dom row = profile_columns) as Hdom.
    { destruct H as [H|H];
        [by eapply app_dashboard_rows|by eapply app1_dashboard_rows]. }
    split; [exact Hdom|].
    apply not_elem_of_dom. rewrite Hdom. unfold profile_columns.
    rewrite !not_elem_of_union, !not_elem_of_singleton. done.
Qed.

Lemma dashboard_protected_access_witness :
  App.dashboard world_ok (init_st db_alice ∅) =
    (Ok (redirect "login"),
     with_flashes [("Please login to access dashboard.", "warning")]
       (init_st db_alice ∅))
  /\ fst (App.dashboard world_ok (init_st db_alice session_alice)) =
       Ok (render_template "dashboard.html" [("user", ObjDict (row_profile alice))])
  /\ fst (App1.dashboard world_ok (init_st db_alice session_alice)) =
       Ok (render_template "dashboard.html" [("user", ObjDict (row_profile alice))])
  /\ row_profile alice !! "password" = None.
Proof.
  split.
  - apply (dashboard_protected_access world_ok db_alice ∅). reflexivity.
  - destruct (dashboard_protected_access world_ok db_alice session_alice)
      as (_ & H & _).
    destruct (H 1 alice [] ltac:(reflexivity) ltac:(reflexivity) ltac:(reflexivity))
      as (Ha & Hb & _ & _ & _ & _ & _ & Hp).
    split; [apply Ha; reflexivity|].
    split; [apply Hb; reflexivity|exact Hp].
Defined.

(** C1 as stated fails: with [user_id] bound in the session the dashboard
    does not always answer with a profile projection.  When the server is
    down, or the lookup fails, app.py redirects home; when the table has no
    row for the id, both variants render the view with [user=None]. *)
Lemma dashboard_authenticated_without_profile :
  session_alice !! "user_id" = Some (VInt 1)
  /\ fst (App.dashboard world_down (init_st db_alice session_alice)) =
       Ok (redirect "index")
  /\ ~ returns_profile (fst (App.dashboard world_down (init_st db_alice session_alice)))
  /\ fst (App.dashboard world_exec_fault (init_st db_alice session_alice)) =
       Ok (redirect "index")
  /\ ~ returns_profile (fst (App.dashboard world_exec_fault (init_st db_alice session_alice)))
  /\ fst (App.dashboard world_ok (init_st db_empty session_alice)) =
       Ok (render_template "dashboard.html" [("user", ObjValue VNone)])
  /\ ~ returns_profile (fst (App.dashboard world_ok (init_st db_empty session_alice)))
  /\ fst (App1.dashboard world_ok (init_st db_empty session_alice)) =
       Ok (render_template "dashboard.html" [("user", ObjValue VNone)])
  /\ ~ returns_profile (fst (App1.dashboard world_ok (init_st db_empty session_alice))).
Proof.
  assert (fst (App.dashboard world_down (init_st db_alice session_alice)) =
            Ok (redirect "index")) as H1 by (vm_compute; reflexivity).
  assert (fst (App.dashboard world_exec_fault (init_st db_alice session_alice)) =
            Ok (redirect "index")) as H2 by (vm_compute; reflexivity).
  assert (fst (App.dashboard world_ok (init_st db_empty session_alice)) =
            Ok (render_template "dashboard.html" [("user", ObjValue VNone)])) as H3
    by (vm_compute; reflexivity).
  assert (fst (App1.dashboard world_ok (init_st db_empty session_alice)) =
            Ok (render_template "dashboard.html" [("user", ObjValue VNone)])) as H4
    by (vm_compute; reflexivity).
  rewrite H1, H2, H3, H4.
  repeat split; try reflexivity; intros (row & Heq & _); discriminate.
Qed.

(** * Login *)

Arguments connects_within : simpl never.


(** Symbolic execution of app.py's [login] on a POST: one goal per path. *)
Ltac explore_app_login chk w fields db u0 :=
  unfold App.login, form_get; cbn [is_post method form];
  destruct (py_not (fields !! "email") || py_not (fields !! "password")) eqn:Hguard;
  [ cbn
  | run_prims; use_conn_spec;
    destruct (connects_within w 5 0) eqn:Hconn;
    [ subst;
      destruct (w_fault w) as [[[] []]|] eqn:Hfault;
      cbn -[run_statement row_all]; run_sql;
      destruct (find_by_email (users db) (the (fields !! "email")))
        as [|u0 ?rest] eqn:Hfind;
      cbn -[row_all];
      try (let Hid := fresh "Hid" in
           let Hun := fresh "Hun" in
           let Hem := fresh "Hem" in
           let Hpw := fresh "Hpw" in
           destruct (all_row_lookup u0) as (Hid & Hun & Hem & Hpw);
           rewrite ?Hpw; cbn -[row_all];
           destruct (chk (u_password u0) (the (fields !! "password"))) eqn:Hchk;
           cbn -[row_all]; rewrite ?Hid, ?Hun, ?Hem; cbn -[row_all])
    | cbn ] ].

(** Symbolic execution of app1.py's [login] on a POST. *)
Ltac explore_app1_login chk w fields db n p u0 :=
  unfold App1.login, App1.get_db_connection; cbn [is_post method form];
  run_prims;
  destruct (fields !! "username") as [n|] eqn:Hn; cbn -[run_statement row_all];
  [ destruct (fields !! "password") as [p|] eqn:Hp; cbn -[run_statement row_all];
    [ destruct (w_connect w 0) eqn:Hconn; cbn -[run_statement row_all];
      [ destruct (w_fault w) as [[[] []]|] eqn:Hfault;
        cbn -[run_statement row_all]; run_sql;
        destruct (find_by_username (users db) n) as [|u0 ?rest] eqn:Hfind;
        cbn -[row_all];
        try (let Hid := fresh "Hid" in
             let Hun := fresh "Hun" in
             let Hem := fresh "Hem" in
             let Hpw := fresh "Hpw" in
             destruct (all_row_lookup u0) as (Hid & Hun & Hem & Hpw);
             rewrite ?Hpw; cbn -[row_all];
             destruct (chk (u_password u0) p) eqn:Hchk;
             cbn -[row_all]; rewrite ?Hid, ?Hun, ?Hem; cbn -[row_all])
      | | ]
    | ]
  | ].







Lemma app_login_table chk w fields db sess :
  outcome (App.login chk w (mkRequest POST fields) (init_st db sess)) =
    login_outcome_app db sess (login_case_app chk w fields db).
Proof.
  unfold outcome, login_case_app, lookup_fault, fault_at, verified_user.
  explore_app_login chk w fields db u0.
  all: reflexivity.
Qed.

Lemma app1_login_table chk w fields db sess n p :
  fields !! "username" = Some n ->
  fields !! "password" = Some p ->
  w_connect w 0 = Connected ->
  lookup_fault w = false ->
  outcome (App1.login chk w (mkRequest POST fields) (init_st db sess)) =
    login_outcome_app1 db sess
      (verified_user chk (find_by_username (users db) n) p).
Proof.
  intros Hn' Hp' Hc Hf. revert Hf.
  unfold outcome, lookup_fault, fault_at, verified_user.
  explore_app1_login chk w fields db n0 p0 u0.
  all: try discriminate.
  all: injection Hn' as <-; injection Hp' as <-.
  all: rewrite ?Hfind, ?Hchk; try reflexivity; try discriminate.
Qed.

Lemma outcome_session {A} (x : result A * St) r db sess fl :
  outcome x = (r, db, sess, fl) -> st_session (snd x) = sess.
Proof. unfold outcome. congruence. Qed.


Lemma outcome_result {A} (x : result A * St) r db sess fl :
  outcome x = (r, db, sess, fl) -> fst x = r.
Proof. unfold outcome. congruence. Qed.




Lemma verified_user_some chk found p :
  (exists u, verified_user chk found p = Some u)
  <-> exists u rest, found = u :: rest /\ chk (u_password u) p = true.
Proof.
  unfold verified_user. destruct found as [|u rest].
  - split; [intros [u Hu]; discriminate|intros (u & rest & Hu & _); discriminate].
  - destruct (chk (u_password u) p) eqn:Hchk.
    + split; [intros _; by exists u, rest|intros _; by exists u].
    + split; [intros [u' Hu']; discriminate|].
      intros (u' & rest' & Hu' & Hc). injection Hu' as <- <-. congruence.
Qed.

Lemma login_case_accepted chk w fields db :
  (exists u, login_case_app chk w fields db = Accepted u)
  <-> py_not (fields !! "email") = false
      /\ py_not (fields !! "password") = false
      /\ connects_within w 5 0 = true
      /\ lookup_fault w = false
      /\ exists u rest,
           find_by_email (users db) (the (fields !! "email")) = u :: rest
           /\ chk (u_password u) (the (fields !! "password")) = true.
Proof.
  rewrite <- verified_user_some. unfold login_case_app.
  destruct (py_not (fields !! "email")); cbn;
    [split; [intros [u Hu]; discriminate|intros (H & _); discriminate]|].
  destruct (py_not (fields !! "password")); cbn;
    [split; [intros [u Hu]; discriminate|intros (_ & H & _); discriminate]|].
  destruct (connects_within w 5 0); cbn;
    [|split; [intros [u Hu]; discriminate|intros (_ & _ & H & _); discriminate]].
  destruct (lookup_fault w);
    [split; [intros [u Hu]; discriminate|intros (_ & _ & _ & H & _); discriminate]|].
  destruct (verified_user chk (find_by_email (users db) (the (fields !! "email")))
              (the (fields !! "password"))) as [u|].
  - split; [intros _; repeat split; by exists u|intros _; by exists u].
  - split; [intros [u Hu]; discriminate|intros (_ & _ & _ & _ & u & Hu); discriminate].
Qed.

(** C3 (as amended).  app.py's login, on any submission, answers as the
    case table [login_outcome_app] says.  From an anonymous session, the
    session ends bound to a user id exactly when both fields are non-empty,
    a connection is acquired, the lookup does not fail, finds a user and
    [check_password_hash] accepts the password against the stored hash; the
    flow then redirects home.  In every other case the session is left as
    it was; the warning is the invalid-credentials one when the lookup ran
    ([Rejected]), the required-fields one when a field is missing or empty,
    and a store failure one when the store is unavailable or the lookup
    raised.  app1.py's login, when both fields are present, the connection
    is made and the lookup does not fail, binds the session iff the lookup
    by username finds a user whose hash verifies, and warns of invalid
    credentials otherwise. *)
Theorem login_transition (chk : string -> string -> bool) (w : World)
    (fields : gmap string string) (db : Store) (sess : gmap string value) :
  outcome (App.login chk w (mkRequest POST fields) (init_st db sess)) =
    login_outcome_app db sess (login_case_app chk w fields db)
  /\ (sess !! "user_id" = None ->
      (st_session (snd (App.login chk w (mkRequest POST fields) (init_st db sess)))
         !! "user_id" <> None
       <-> py_not (fields !! "email") = false
           /\ py_not (fields !! "password") = false
           /\ connects_within w 5 0 = true
           /\ lookup_fault w = false
           /\ exists u rest,
                find_by_email (users db) (the (fields !! "email")) = u :: rest
                /\ chk (u_password u) (the (fields !! "password")) = true))
  /\ (forall n p,
        fields !! "username" = Some n ->
        fields !! "password" = Some p ->
        w_connect w 0 = Connected ->
        lookup_fault w = false ->
        outcome (App1.login chk w (mkRequest POST fields) (init_st db sess)) =
          login_outcome_app1 db sess
            (verified_user chk (find_by_username (users db) n) p)
        /\ (sess !! "user_id" = None ->
            (st_session (snd (App1.login chk w (mkRequest POST fields) (init_st db sess)))
               !! "user_id" <> None
             <-> exists u rest,
                 find_by_username (users db) n = u :: rest
                 /\ chk (u_password u) p = true))).
Proof.
  split; [apply app_login_table|]. split.
  - intros Hanon. rewrite <- login_case_accepted.
    pose proof (app_login_table chk w fields db sess) as H.
    destruct (login_case_app chk w fields db) as [| | | |u];
      apply outcome_session in H; rewrite H.
    1-4: split; [intros Hb; by destruct Hb|intros [u Hu]; discriminate].
    split; [by exists u|intros _].
    rewrite lookup_insert_ne, lookup_insert_ne, lookup_insert_eq; done.
  - intros n p Hn Hp Hc Hf.
    pose proof (app1_login_table chk w fields db sess n p Hn Hp Hc Hf) as H.
    split; [exact H|]. intros Hanon. rewrite <- verified_user_some.
    destruct (verified_user chk (find_by_username (users db) n) p) as [u|];
      apply outcome_session in H; rewrite H.
    + split; [by exists u|intros _].
      rewrite lookup_insert_ne, lookup_insert_eq; done.
    + split; [intros Hb; by destruct Hb|intros [u Hu]; discriminate].
Qed.

Lemma login_transition_witness :
  outcome (App.login demo_check world_ok (mkRequest POST fields_alice)
             (init_st db_alice ∅)) =
    login_outcome_app db_alice ∅ (Accepted alice)
  /\ outcome (App1.login demo_check world_ok (mkRequest POST fields_alice)
                (init_st db_alice ∅)) =
       login_outcome_app1 db_alice ∅ (Some alice).
Proof.
  destruct (login_transition demo_check world_ok fields_alice db_alice ∅)
    as (Ha & _ & Hb).
  split; [exact Ha|].
  exact (proj1 (Hb "alice" "pw1" eq_refl eq_refl eq_refl eq_refl)).
Defined.

(** C3 as stated fails on app.py: a submission that does not authenticate
    is not always answered with the invalid-credentials warning.  An empty
    password for an existing user is answered with the required-fields
    warning; and when the server is down the right password for an existing
    user does not bind the session and is answered with the
    connection-failed warning. *)
Lemma login_other_warnings :
  find_by_email (users db_alice) "alice@x.com" = [alice]
  /\ demo_check (u_password alice) "" = false
  /\ outcome (App.login demo_check world_ok
                (post [("email", "alice@x.com"); ("password", "")])
                (init_st db_alice ∅)) =
       (Ok (render_template "login.html" []), db_alice, ∅,
        [("Email and password are required!", "danger")])
  /\ [("Email and password are required!", "danger")] <> invalid_credentials_app
  /\ demo_check (u_password alice) "pw1" = true
  /\ outcome (App.login demo_check world_down
                (post [("email", "alice@x.com"); ("password", "pw1")])
                (init_st db_alice ∅)) =
       (Ok (render_template "login.html" []), db_alice, ∅,
        [("Database connection failed. Please try again later.", "danger")])
  /\ [("Database connection failed. Please try again later.", "danger")]
       <> invalid_credentials_app.
Proof.
  repeat split; try (vm_compute; reflexivity); discriminate.
Qed.

(** C10.  In app.py, a login submission whose [email] or [password] field
    is missing or empty is answered with the login form and the
    required-fields message, and the only change to the request state is
    that message: no [connect] call, no statement, same session, same
    table. *)
Theorem login_requires_fields (chk : string -> string -> bool) (w : World)
    (fields : gmap string string) (s : St) :
  fields !! "email" = None \/ fields !! "email" = Some "" \/
  fields !! "password" = None \/ fields !! "password" = Some "" ->
  App.login chk w (mkRequest POST fields) s =
    (Ok (render_template "login.html" []),
     with_flashes
       (st_flashes s ++ [("Email and password are required!", "danger")])%list s).
Proof.
  intros H. unfold App.login, form_get. cbn [is_post method form].
  assert (py_not (fields !! "email") || py_not (fields !! "password") = true) as ->.
  { destruct H as [H|[H|[H|H]]]; rewrite H; cbn; rewrite ?orb_true_r; reflexivity. }
  reflexivity.
Qed.

Lemma login_requires_fields_witness :
  App.login demo_check world_ok (mkRequest POST fields_no_password)
    (init_st db_alice ∅) =
    (Ok (render_template "login.html" []),
     with_flashes [("Email and password are required!", "danger")]
       (init_st db_alice ∅)).
Proof.
  apply (login_requires_fields demo_check world_ok fields_no_password
           (init_st db_alice ∅)).
  right; right; right. vm_compute. reflexivity.
Defined.

(** * The connection retry loop *)



Lemma connect_attempts_app tr1 tr2 :
  connect_attempts (tr1 ++ tr2) = (connect_attempts tr1 + connect_attempts tr2)%nat.
Proof.
  induction tr1 as [|e tr1 IH]; [reflexivity|].
  destruct e; cbn; rewrite ?IH; reflexivity.
Qed.

Lemma delays_app tr1 tr2 : delays (tr1 ++ tr2) = (delays tr1 ++ delays tr2)%list.
Proof.
  induction tr1 as [|e tr1 IH]; [reflexivity|].
  destruct e; cbn; rewrite ?IH; reflexivity.
Qed.

(** One iteration of the loop. *)
Lemma loop_step w max d todo attempt :
  App.get_db_connection_loop w max d (S todo) attempt =
    (r <- try_except
            (connection <- connect w attempt ;;
             ok <- is_connected ;;
             if ok then print LogConnected ;;; ret (Some (Some connection))
             else ret None)
            (fun e =>
               if is_mysql_error e then Some (
                 print (LogAttemptFailed (attempt + 1)) ;;;
                 if (attempt <? max - 1)%nat then
                   print (LogRetrying d) ;;; sleep d ;;; ret None
                 else print LogMaxRetries ;;; ret (Some None))
               else None) ;;
     match r with
     | Some result => ret result
     | None => App.get_db_connection_loop w max d todo (S attempt)
     end).
Proof. reflexivity. Qed.






(** * Every path of the handlers *)

Ltac explore_app_register w fields db n e p :=
  unfold App.register; cbn [is_post method form]; run_prims;
  destruct (fields !! "username") as [n|] eqn:Hn; cbn -[run_statement];
  [ destruct (fields !! "email") as [e|] eqn:He; cbn -[run_statement];
    [ destruct (fields !! "password") as [p|] eqn:Hp; cbn -[run_statement];
      [ use_conn_spec;
        destruct (connects_within w 5 0) eqn:Hconn;
        [ subst;
          destruct (w_fault w) as [[[] []]|] eqn:Hfault;
          cbn -[run_statement]; run_sql;
          destruct (violates_unique (users db) n e) eqn:Huniq; cbn
        | cbn ]
      | ]
    | ]
  | ].

Ltac explore_app1_register w fields db n e p :=
  unfold App1.register, App1.get_db_connection; cbn [is_post method form];
  run_prims;
  destruct (fields !! "username") as [n|] eqn:Hn; cbn -[run_statement];
  [ destruct (fields !! "email") as [e|] eqn:He; cbn -[run_statement];
    [ destruct (fields !! "password") as [p|] eqn:Hp; cbn -[run_statement];
      [ destruct (w_connect w 0) eqn:Hconn; cbn -[run_statement];
        [ destruct (w_fault w) as [[[] []]|] eqn:Hfault;
          cbn -[run_statement]; run_sql;
          destruct (violates_unique (users db) n e) eqn:Huniq; cbn
        | | ]
      | ]
    | ]
  | ].

Ltac explore_app_dashboard w db sess v i u0 :=
  unfold App.dashboard; run_prims;
  destruct (sess !! "user_id") as [v|] eqn:Hs; cbn [negb];
  [ use_conn_spec;
    destruct (connects_within w 5 0) eqn:Hconn;
    [ subst; cbn -[run_statement]; rewrite ?Hs;
      destruct (w_fault w) as [[[] []]|] eqn:Hfault;
      cbn -[run_statement row_profile];
      destruct v as [|i|]; cbn -[row_profile]; run_sql;
      try (destruct (find_by_id (users db) i) as [|u0 ?rest] eqn:Hfind;
           cbn -[row_profile])
    | cbn ]
  | cbn ].

Ltac explore_app1_dashboard w db sess v i u0 :=
  unfold App1.dashboard, App1.get_db_connection; run_prims;
  destruct (sess !! "user_id") as [v|] eqn:Hs; cbn [negb];
  [ destruct (w_connect w 0) eqn:Hconn; cbn -[run_statement];
    [ rewrite ?Hs;
      destruct (w_fault w) as [[[] []]|] eqn:Hfault;
      cbn -[run_statement row_profile];
      destruct v as [|i|]; cbn -[row_profile]; run_sql;
      try (destruct (find_by_id (users db) i) as [|u0 ?rest] eqn:Hfind;
           cbn -[row_profile])
    | | ]
  | cbn ].

Ltac solve_released :=
  unfold released; cbn;
  try match goal with H : _ \/ _ |- _ => destruct H; subst end;
  (split; [discriminate|intros; first [discriminate|reflexivity|congruence]]).

Lemma app_register_released gen w req db sess :
  released (snd (App.register gen w req (init_st db sess))).
Proof.
  destruct req as [[|] fields]; [solve_released|].
  explore_app_register w fields db n e p.
  all: solve_released.
Qed.

Lemma app_login_released chk w req db sess :
  released (snd (App.login chk w req (init_st db sess))).
Proof.
  destruct req as [[|] fields]; [solve_released|].
  explore_app_login chk w fields db u0.
  all: solve_released.
Qed.

Lemma app_dashboard_released w db sess :
  released (snd (App.dashboard w (init_st db sess))).
Proof.
  explore_app_dashboard w db sess v i u0.
  all: solve_released.
Qed.

Lemma app1_register_released gen w req db sess :
  released (snd (App1.register gen w req (init_st db sess))).
Proof.
  destruct req as [[|] fields]; [solve_released|].
  explore_app1_register w fields db n e p.
  all: solve_released.
Qed.

(** C6 on app1.py.  A dashboard request of a logged-in user, and a login
    submission, whose [cursor.execute] raises a store error while the
    connection stays up: the exception leaves the handler with the
    connection and the cursor still open, neither [close] having been
    called. *)
Theorem app1_lookup_error_leaves_connection_open :
  fst (App1.dashboard world_exec_fault (init_st db_alice session_alice)) =
    Raise MySQLError
  /\ st_conn (snd (App1.dashboard world_exec_fault (init_st db_alice session_alice))) =
       Alive
  /\ st_cursor (snd (App1.dashboard world_exec_fault (init_st db_alice session_alice))) =
       CursorOpen
  /\ st_trace (snd (App1.dashboard world_exec_fault (init_st db_alice session_alice))) =
       [EConnect 0 Connected; ECursor; EExecute sql_select_profile [VInt 1]]
  /\ ~ released (snd (App1.dashboard world_exec_fault (init_st db_alice session_alice)))
  /\ fst (App1.login demo_check world_exec_fault req_wrong_password (init_st db_alice ∅)) =
       Raise MySQLError
  /\ st_trace (snd (App1.login demo_check world_exec_fault req_wrong_password
                      (init_st db_alice ∅))) =
       [EConnect 0 Connected; ECursor;
        EExecute sql_select_by_username [VStr "alice"]]
  /\ ~ released (snd (App1.login demo_check world_exec_fault req_wrong_password
                        (init_st db_alice ∅))).
Proof.
  repeat split; try (vm_compute; reflexivity).
  - intros [H _]. vm_compute in H. by apply H.
  - intros [H _]. vm_compute in H. by apply H.
Qed.

(** X2.  Every handler of app.py that opens a connection leaves the
    request with nothing held, on every path and in every world: the
    connection is closed or was lost, and the cursor is closed unless its
    connection was lost.  app1.py's [register], whose statement sits in a
    [try ... finally], does the same. *)
Theorem app_handlers_release (gen : string -> string -> string)
    (chk : string -> string -> bool) (w : World) (req : Request)
    (db : Store) (sess : gmap string value) :
  released (snd (App.register gen w req (init_st db sess)))
  /\ released (snd (App.login chk w req (init_st db sess)))
  /\ released (snd (App.dashboard w (init_st db sess)))
  /\ released (snd (App1.register gen w req (init_st db sess))).
Proof.
  split; [apply app_register_released|].
  split; [apply app_login_released|].
  split; [apply app_dashboard_released|apply app1_register_released].
Qed.

(** * Registration under store failure *)

Lemma app_register_unavailable gen w fields db sess n e p :
  fields !! "username" = Some n ->
  fields !! "email" = Some e ->
  fields !! "password" = Some p ->
  connects_within w 5 0 = false ->
  outcome (App.register gen w (mkRequest POST fields) (init_st db sess)) =
    (Ok (render_template "register.html" []), db, sess,
     [("Database connection failed. Please try again later.", "danger")]).
Proof.
  intros Hn' He' Hp' Hc. revert Hc. unfold outcome.
  explore_app_register w fields db n0 e0 p0; try discriminate.
  reflexivity.
Qed.

Lemma app_register_fault gen w fields db sess n e p :
  fields !! "username" = Some n ->
  fields !! "email" = Some e ->
  fields !! "password" = Some p ->
  connects_within w 5 0 = true ->
  fault_at w CallExecute <> None
  \/ (violates_unique (users db) n e = false /\ fault_at w CallCommit <> None) ->
  outcome (App.register gen w (mkRequest POST fields) (init_st db sess)) =
    (Ok (render_template "register.html" []), db, sess,
     [("An error occurred. Please try again.", "danger")]).
Proof.
  intros Hn' He' Hp' Hc Hf. revert Hc Hf. unfold outcome, fault_at.
  explore_app_register w fields db n0 e0 p0; try discriminate.
  all: injection Hn' as <-; injection He' as <-; injection Hp' as <-.
  all: rewrite ?Huniq; cbn.
  all: try reflexivity.
  all: intros _ [H|[H1 H2]]; congruence.
Qed.

(** X3.  app.py's [register], on a submission carrying its three fields:
    when no connection is acquired after the retries, and when the insert
    or the commit raises a store error other than a duplicate key, the
    handler answers with the registration form and one retry warning, and
    leaves the session and the table as they were; no exception escapes. *)
Theorem app_register_store_failure_degrades (gen : string -> string -> string)
    (w : World) (fields : gmap string string) (db : Store)
    (sess : gmap string value) (n e p : string) :
  fields !! "username" = Some n ->
  fields !! "email" = Some e ->
  fields !! "password" = Some p ->
  (connects_within w 5 0 = false ->
     outcome (App.register gen w (mkRequest POST fields) (init_st db sess)) =
       (Ok (render_template "register.html" []), db, sess,
        [("Database connection failed. Please try again later.", "danger")]))
  /\ (connects_within w 5 0 = true ->
      fault_at w CallExecute <> None
      \/ (violates_unique (users db) n e = false /\ fault_at w CallCommit <> None) ->
      outcome (App.register gen w (mkRequest POST fields) (init_st db sess)) =
        (Ok (render_template "register.html" []), db, sess,
         [("An error occurred. Please try again.", "danger")])).
Proof.
  intros Hn He Hp. split.
  - intros Hc. exact (app_register_unavailable gen w fields db sess n e p Hn He Hp Hc).
  - intros Hc Hf. exact (app_register_fault gen w fields db sess n e p Hn He Hp Hc Hf).
Qed.

Lemma app_register_store_failure_degrades_witness :
  outcome (App.register demo_generate world_down (mkRequest POST fields_bob)
             (init_st db_alice ∅)) =
    (Ok (render_template "register.html" []), db_alice, ∅,
     [("Database connection failed. Please try again later.", "danger")])
  /\ outcome (App.register demo_generate world_exec_fault (mkRequest POST fields_bob)
                (init_st db_alice ∅)) =
       (Ok (render_template "register.html" []), db_alice, ∅,
        [("An error occurred. Please try again.", "danger")]).
Proof.
  split.
  - exact (proj1 (app_register_store_failure_degrades demo_generate world_down
                    fields_bob db_alice ∅ "bob" "bob@x.com" "pw2"
                    eq_refl eq_refl eq_refl) eq_refl).
  - apply (proj2 (app_register_store_failure_degrades demo_generate
                    world_exec_fault fields_bob db_alice ∅ "bob" "bob@x.com"
                    "pw2" eq_refl eq_refl eq_refl)).
    + reflexivity.
    + left. discriminate.
Defined.

(** C7 on app1.py.  A registration submitted while the server is down, or
    whose insert raises a store error other than a duplicate key, ends with
    the exception leaving the handler: no response, no flashed message. *)
Theorem app1_register_store_failure_raises :
  outcome (App1.register demo_generate world_down (mkRequest POST fields_bob)
             (init_st db_alice ∅)) =
    (Raise MySQLError, db_alice, ∅, [])
  /\ outcome (App1.register demo_generate world_exec_fault (mkRequest POST fields_bob)
                (init_st db_alice ∅)) =
       (Raise MySQLError, db_alice, ∅, []).
Proof. split; vm_compute; reflexivity. Qed.

(** * The statements issued *)

Ltac solve_texts :=
  cbn -[sql_texts];
  repeat rewrite sql_texts_app;
  try match goal with
      | H : Forall quiet_event ?tr |- _ => rewrite ?(sql_texts_quiet tr H)
      end;
  cbn;
  first [left; reflexivity | right; reflexivity].

Lemma app_register_texts gen w req db sess :
  sql_texts (st_trace (snd (App.register gen w req (init_st db sess)))) = []
  \/ sql_texts (st_trace (snd (App.register gen w req (init_st db sess)))) =
       [sql_insert_user].
Proof.
  destruct req as [[|] fields]; [solve_texts|].
  explore_app_register w fields db n e p.
  all: solve_texts.
Qed.

Lemma app1_register_texts gen w req db sess :
  sql_texts (st_trace (snd (App1.register gen w req (init_st db sess)))) = []
  \/ sql_texts (st_trace (snd (App1.register gen w req (init_st db sess)))) =
       [sql_insert_user].
Proof.
  destruct req as [[|] fields]; [solve_texts|].
  explore_app1_register w fields db n e p.
  all: solve_texts.
Qed.

Lemma app_login_texts chk w req db sess :
  sql_texts (st_trace (snd (App.login chk w req (init_st db sess)))) = []
  \/ sql_texts (st_trace (snd (App.login chk w req (init_st db sess)))) =
       [sql_select_by_email].
Proof.
  destruct req as [[|] fields]; [solve_texts|].
  explore_app_login chk w fields db u0.
  all: solve_texts.
Qed.

Lemma app1_login_texts chk w req db sess :
  sql_texts (st_trace (snd (App1.login chk w req (init_st db sess)))) = []
  \/ sql_texts (st_trace (snd (App1.login chk w req (init_st db sess)))) =
       [sql_select_by_username].
Proof.
  destruct req as [[|] fields]; [solve_texts|].
  explore_app1_login chk w fields db n p u0.
  all: solve_texts.
Qed.

Lemma app_dashboard_texts w db sess :
  sql_texts (st_trace (snd (App.dashboard w (init_st db sess)))) = []
  \/ sql_texts (st_trace (snd (App.dashboard w (init_st db sess)))) =
       [sql_select_profile].
Proof.
  explore_app_dashboard w db sess v i u0.
  all: solve_texts.
Qed.

Lemma app1_dashboard_texts w db sess :
  sql_texts (st_trace (snd (App1.dashboard w (init_st db sess)))) = []
  \/ sql_texts (st_trace (snd (App1.dashboard w (init_st db sess)))) =
       [sql_select_profile].
Proof.
  explore_app1_dashboard w db sess v i u0.
  all: solve_texts.
Qed.

Lemma prefix_app p x : String.prefix p (p ++ x) = true.
Proof.
  induction p as [|a p IH]; simpl; [by destruct x|].
  destruct (Ascii.ascii_dec a a); [exact IH|contradiction].
Qed.

Lemma run_create_database db pending now name :
  run_statement db pending now (sql_create_database_prefix ++ name) [] = NoResult.
Proof. unfold run_statement. rewrite prefix_app. reflexivity. Qed.

Lemma run_use db pending now name :
  run_statement db pending now (sql_use_prefix ++ name) [] = NoResult.
Proof. unfold run_statement. rewrite prefix_app. reflexivity. Qed.

Lemma run_create_table db pending now :
  run_statement db pending now sql_create_table [] = NoResult.
Proof. reflexivity. Qed.

Lemma init_db_texts cfg w db sess :
  exists n,
    sql_texts (st_trace (snd (App1.init_db cfg w (init_st db sess)))) =
      take n [sql_create_database_prefix ++ App1.database cfg;
              sql_use_prefix ++ App1.database cfg;
              sql_create_table].
Proof.
  unfold App1.init_db. run_prims.
  destruct (w_connect w 0); cbn -[run_statement];
    [|by exists 0%nat|by exists 0%nat].
  destruct (w_fault w) as [[[] []]|]; cbn -[run_statement];
    rewrite ?run_create_database; cbn -[run_statement];
    rewrite ?run_use; cbn -[run_statement];
    rewrite ?run_create_table; cbn -[run_statement].
  1-2: by exists 1%nat.
  all: by exists 3%nat.
Qed.

(** C8 (as amended).  In every world and for every request, session and
    table, the statements a request handler passes to [cursor.execute] are
    taken from four fixed texts: [register] issues nothing or the INSERT
    text, [login] nothing or its SELECT text (by email in app.py, by
    username in app1.py), [dashboard] nothing or the profile SELECT text;
    no submitted or configured value enters these texts.  [init_db] of
    app1.py issues a prefix of three statements, of which the first two are
    built by splicing the configured database name into the text. *)
Theorem handler_statements_constant (gen : string -> string -> string)
    (chk : string -> string -> bool) (w : World) (req : Request)
    (db : Store) (sess : gmap string value) (cfg : App1.DbConfig) :
  (sql_texts (st_trace (snd (App.register gen w req (init_st db sess)))) = []
   \/ sql_texts (st_trace (snd (App.register gen w req (init_st db sess)))) =
        [sql_insert_user])
  /\ (sql_texts (st_trace (snd (App.login chk w req (init_st db sess)))) = []
      \/ sql_texts (st_trace (snd (App.login chk w req (init_st db sess)))) =
           [sql_select_by_email])
  /\ (sql_texts (st_trace (snd (App.dashboard w (init_st db sess)))) = []
      \/ sql_texts (st_trace (snd (App.dashboard w (init_st db sess)))) =
           [sql_select_profile])
  /\ (sql_texts (st_trace (snd (App1.register gen w req (init_st db sess)))) = []
      \/ sql_texts (st_trace (snd (App1.register gen w req (init_st db sess)))) =
           [sql_insert_user])
  /\ (sql_texts (st_trace (snd (App1.login chk w req (init_st db sess)))) = []
      \/ sql_texts (st_trace (snd (App1.login chk w req (init_st db sess)))) =
           [sql_select_by_username])
  /\ (sql_texts (st_trace (snd (App1.dashboard w (init_st db sess)))) = []
      \/ sql_texts (st_trace (snd (App1.dashboard w (init_st db sess)))) =
           [sql_select_profile])
  /\ (exists n,
        sql_texts (st_trace (snd (App1.init_db cfg w (init_st db sess)))) =
          take n [sql_create_database_prefix ++ App1.database cfg;
                  sql_use_prefix ++ App1.database cfg;
                  sql_create_table]).
Proof.
  split; [apply app_register_texts|].
  split; [apply app_login_texts|].
  split; [apply app_dashboard_texts|].
  split; [apply app1_register_texts|].
  split; [apply app1_login_texts|].
  split; [apply app1_dashboard_texts|apply init_db_texts].
Qed.

(** C8 as stated fails on [init_db]: the text of its first two statements
    is not a constant, it follows the configured database name. *)
Lemma init_db_text_depends_on_config :
  sql_texts (st_trace (snd (App1.init_db App1.db_config world_ok (init_st db_empty ∅)))) =
    ["CREATE DATABASE IF NOT EXISTS flask_auth_db"; "USE flask_auth_db";
     sql_create_table]
  /\ sql_texts (st_trace (snd (App1.init_db other_config world_ok (init_st db_empty ∅)))) =
       ["CREATE DATABASE IF NOT EXISTS shop"; "USE shop"; sql_create_table]
  /\ sql_texts (st_trace (snd (App1.init_db App1.db_config world_ok (init_st db_empty ∅))))
     <> sql_texts (st_trace (snd (App1.init_db other_config world_ok (init_st db_empty ∅)))).
Proof.
  assert (sql_texts (st_trace (snd (App1.init_db App1.db_config world_ok
                                      (init_st db_empty ∅)))) =
          ["CREATE DATABASE IF NOT EXISTS flask_auth_db"; "USE flask_auth_db";
           sql_create_table]) as H1 by (vm_compute; reflexivity).
  assert (sql_texts (st_trace (snd (App1.init_db other_config world_ok
                                      (init_st db_empty ∅)))) =
          ["CREATE DATABASE IF NOT EXISTS shop"; "USE shop"; sql_create_table])
    as H2 by (vm_compute; reflexivity).
  rewrite H1, H2. repeat split. discriminate.
Qed.

(** * The two variants side by side *)

Lemma connects_first w : w_connect w 0 = Connected -> connects_within w 5 0 = true.
Proof. intros H. unfold connects_within. by rewrite H. Qed.

Lemma register_agree gen w req db sess :
  w_connect w 0 = Connected -> w_fault w = None ->
  outcome (App.register gen w req (init_st db sess)) =
    outcome (App1.register gen w req (init_st db sess)).
Proof.
  intros Hc Hf. pose proof (connects_first w Hc) as Hcw.
  destruct req as [[|] fields]; [reflexivity|].
  unfold outcome, App.register, App1.register, App1.get_db_connection.
  cbn [is_post method form]. run_prims.
  destruct (fields !! "username") as [n|]; cbn -[run_statement]; [|reflexivity].
  destruct (fields !! "email") as [e|]; cbn -[run_statement]; [|reflexivity].
  destruct (fields !! "password") as [p|]; cbn -[run_statement]; [|reflexivity].
  use_conn_spec. rewrite Hcw in *. subst.
  rewrite Hc, Hf. cbn -[run_statement]. run_sql.
  destruct (violates_unique (users db) n e); reflexivity.
Qed.

Lemma dashboard_agree w db sess :
  w_connect w 0 = Connected -> w_fault w = None ->
  outcome (App.dashboard w (init_st db sess)) =
    outcome (App1.dashboard w (init_st db sess)).
Proof.
  intros Hc Hf. pose proof (connects_first w Hc) as Hcw.
  unfold outcome, App.dashboard, App1.dashboard, App1.get_db_connection.
  run_prims.
  destruct (sess !! "user_id") as [v|] eqn:Hs; cbn [negb]; [|reflexivity].
  use_conn_spec. rewrite Hcw in *. subst.
  rewrite Hc, Hf. cbn -[run_statement]. rewrite ?Hs. cbn -[run_statement].
  destruct v as [|i|]; cbn -[row_profile]; run_sql; try reflexivity.
  destruct (find_by_id (users db) i) as [|u0 rest]; reflexivity.
Qed.

(** C9 (as amended).  With the same request, session and table, in a world
    where the first [connect] is accepted and no store call fails, the
    [register], [dashboard] and [index] operations of the two variants give
    the same response, table, session and flashed messages; so does
    [logout] on a session that holds no [email] key. *)
Theorem variants_agree_when_store_answers (gen : string -> string -> string)
    (w : World) (req : Request) (db : Store) (sess : gmap string value) :
  w_connect w 0 = Connected ->
  w_fault w = None ->
  outcome (App.register gen w req (init_st db sess)) =
    outcome (App1.register gen w req (init_st db sess))
  /\ outcome (App.dashboard w (init_st db sess)) =
       outcome (App1.dashboard w (init_st db sess))
  /\ outcome (App.index (init_st db sess)) = outcome (App1.index (init_st db sess))
  /\ (sess !! "email" = None ->
      outcome (App.logout (init_st db sess)) = outcome (App1.logout (init_st db sess))).
Proof.
  intros Hc Hf.
  split; [by apply register_agree|].
  split; [by apply dashboard_agree|].
  split; [reflexivity|].
  intros He. unfold outcome, App.logout, App1.logout. run_prims.
  rewrite (delete_id (delete "username" (delete "user_id" sess)) "email");
    [reflexivity|].
  by rewrite !lookup_delete_ne.
Qed.

Lemma variants_agree_when_store_answers_witness :
  outcome (App.register demo_generate world_ok (mkRequest POST fields_bob)
             (init_st db_alice ∅)) =
    outcome (App1.register demo_generate world_ok (mkRequest POST fields_bob)
               (init_st db_alice ∅))
  /\ outcome (App.dashboard world_ok (init_st db_alice session_alice)) =
       outcome (App1.dashboard world_ok (init_st db_alice session_alice)).
Proof.
  split.
  - exact (proj1 (variants_agree_when_store_answers demo_generate world_ok
                    (mkRequest POST fields_bob) db_alice ∅ eq_refl eq_refl)).
  - exact (proj1 (proj2 (variants_agree_when_store_answers demo_generate world_ok
                    (mkRequest POST fields_bob) db_alice session_alice
                    eq_refl eq_refl))).
Defined.

(** C9 as stated fails.  The same login form, with alice's email and an
    unknown username, authenticates in app.py (lookup by email) and is
    rejected in app1.py (lookup by username); a rejected login is flashed
    with different texts; and when the server is down app.py's register
    answers with a warning where app1.py's raises. *)
Lemma variants_login_differ :
  outcome (App.login demo_check world_ok
             (post [("username", "bob"); ("email", "alice@x.com"); ("password", "pw1")])
             (init_st db_alice ∅)) =
    login_outcome_app db_alice ∅ (Accepted alice)
  /\ outcome (App1.login demo_check world_ok
                (post [("username", "bob"); ("email", "alice@x.com"); ("password", "pw1")])
                (init_st db_alice ∅)) =
       login_outcome_app1 db_alice ∅ None
  /\ fst (App.login demo_check world_ok
            (post [("username", "bob"); ("email", "alice@x.com"); ("password", "pw1")])
            (init_st db_alice ∅))
     <> fst (App1.login demo_check world_ok
               (post [("username", "bob"); ("email", "alice@x.com"); ("password", "pw1")])
               (init_st db_alice ∅))
  /\ st_flashes (snd (App.login demo_check world_ok req_wrong_password
                        (init_st db_alice ∅)))
     <> st_flashes (snd (App1.login demo_check world_ok req_wrong_password
                           (init_st db_alice ∅)))
  /\ fst (App.register demo_generate world_down (mkRequest POST fields_bob)
            (init_st db_alice ∅)) = Ok (render_template "register.html" [])
  /\ fst (App1.register demo_generate world_down (mkRequest POST fields_bob)
            (init_st db_alice ∅)) = Raise MySQLError.
Proof.
  repeat split; try (vm_compute; reflexivity).
  - intros H. vm_compute in H. discriminate H.
  - intros H. vm_compute in H. discriminate H.
Qed.

(** * Registration *)

Lemma form3_lookup n e p :
  form3 n e p !! "username" = Some n
  /\ form3 n e p !! "email" = Some e
  /\ form3 n e p !! "password" = Some p.
Proof. unfold form3. repeat split; by simplify_map_eq. Qed.

Lemma violates_unique_false rows n e :
  violates_unique rows n e = false ->
  forall u, u ∈ rows -> u_username u <> n /\ u_email u <> e.
Proof.
  unfold violates_unique. intros H u Hu.
  destruct (decide (u_username u = n)) as [Hn|Hn];
    [|destruct (decide (u_email u = e)) as [He|He]; [|done]].
  all: assert (existsb (fun u => String.eqb (u_username u) n
                                  || String.eqb (u_email u) e) rows = true)
         as Hex
         by (apply existsb_exists; exists u; split;
             [by apply list_elem_of_In
             |rewrite ?Hn, ?He, ?String.eqb_refl, ?orb_true_r; reflexivity]).
  all: congruence.
Qed.

Lemma unique_after_insert db u :
  unique_users db ->
  violates_unique (users db) (u_username u) (u_email u) = false ->
  unique_users (mkStore (users db ++ [u]) (next_id db + 1)).
Proof.
  intros [Hn He] Hv. pose proof (violates_unique_false _ _ _ Hv) as Hfresh.
  unfold unique_users. cbn. rewrite !fmap_app. cbn.
  split; apply NoDup_app; (split; [assumption|]); (split; [|apply NoDup_singleton]).
  - intros x Hx Hx'. apply list_elem_of_singleton in Hx'. subst.
    apply list_elem_of_fmap in Hx as (u' & Heq & Hin).
    destruct (Hfresh u' Hin) as [H _]. congruence.
  - intros x Hx Hx'. apply list_elem_of_singleton in Hx'. subst.
    apply list_elem_of_fmap in Hx as (u' & Heq & Hin).
    destruct (Hfresh u' Hin) as [_ H]. congruence.
Qed.




Lemma app_register_table gen w db sess n e p :
  connects_within w 5 0 = true -> w_fault w = None ->
  outcome (App.register gen w (mkRequest POST (form3 n e p)) (init_st db sess)) =
    if violates_unique (users db) n e then
      (Ok (render_template "register.html" []), db, sess,
       [("Username or email already exists!", "danger")])
    else
      (Ok (redirect "login"),
       mkStore (users db ++ [new_user gen w db n e p]) (next_id db + 1), sess,
       [("Registration successful! Please login.", "success")]).
Proof.
  intros Hc Hf. destruct (form3_lookup n e p) as (Hn' & He' & Hp').
  revert Hc Hf. unfold outcome, new_user.
  explore_app_register w (form3 n e p) db n0 e0 p0; try discriminate.
  all: injection Hn' as <-; injection He' as <-; injection Hp' as <-.
  all: rewrite ?Huniq, ?Z.add_0_r; reflexivity.
Qed.

Lemma app1_register_table gen w db sess n e p :
  w_connect w 0 = Connected -> w_fault w = None ->
  outcome (App1.register gen w (mkRequest POST (form3 n e p)) (init_st db sess)) =
    if violates_unique (users db) n e then
      (Ok (render_template "register.html" []), db, sess,
       [("Username or email already exists!", "danger")])
    else
      (Ok (redirect "login"),
       mkStore (users db ++ [new_user gen w db n e p]) (next_id db + 1), sess,
       [("Registration successful! Please login.", "success")]).
Proof.
  intros Hc Hf. destruct (form3_lookup n e p) as (Hn' & He' & Hp').
  revert Hc Hf. unfold outcome, new_user.
  explore_app1_register w (form3 n e p) db n0 e0 p0; try discriminate.
  all: injection Hn' as <-; injection He' as <-; injection Hp' as <-.
  all: rewrite ?Huniq, ?Z.add_0_r; reflexivity.
Qed.

Lemma filter_none {A} (P : A -> Prop) `{!forall x, Decision (P x)} (l : list A) :
  (forall x, x ∈ l -> ~ P x) -> filter P l = [].
Proof.
  induction l as [|a l IH]; intros Hall; [reflexivity|].
  rewrite filter_cons_False by (apply Hall; left).
  apply IH. intros x Hx. apply Hall. by right.
Qed.

Lemma find_new_by_email db u n e :
  u_username u = n -> u_email u = e ->
  violates_unique (users db) n e = false ->
  find_by_email (users db ++ [u]) e = [u].
Proof.
  intros <- <- Hv. pose proof (violates_unique_false _ _ _ Hv) as Hfresh.
  unfold find_by_email. rewrite filter_app.
  assert (filter (fun u' => u_email u' = u_email u) (users db) = []) as ->.
  { apply filter_none. intros u' Hin. by destruct (Hfresh u' Hin). }
  rewrite app_nil_l, filter_cons_True by reflexivity. reflexivity.
Qed.

Lemma find_new_by_username db u n e :
  u_username u = n -> u_email u = e ->
  violates_unique (users db) n e = false ->
  find_by_username (users db ++ [u]) n = [u].
Proof.
  intros <- <- Hv. pose proof (violates_unique_false _ _ _ Hv) as Hfresh.
  unfold find_by_username. rewrite filter_app.
  assert (filter (fun u' => u_username u' = u_username u) (users db) = []) as ->.
  { apply filter_none. intros u' Hin. by destruct (Hfresh u' Hin). }
  rewrite app_nil_l, filter_cons_True by reflexivity. reflexivity.
Qed.

Lemma py_not_nonempty v : v <> "" -> py_not (Some v) = false.
Proof. intros H. cbn. by apply String.eqb_neq. Qed.

(** X4.  A registration carrying its three fields, in a world where the
    connection is made and no store call fails: if the username or the
    email is already in the table, both variants answer with the form and
    the duplicate warning and leave the table as it was; otherwise both
    redirect to the login view and the table gains exactly one row, with
    the next id, the submitted username and email, the hash produced by
    [generate_password_hash] and the server's timestamp.  The session is
    untouched either way. *)
Theorem register_outcomes (gen : string -> string -> string) (w : World)
    (db : Store) (sess : gmap string value) (n e p : string) :
  w_connect w 0 = Connected ->
  w_fault w = None ->
  outcome (App.register gen w (mkRequest POST (form3 n e p)) (init_st db sess)) =
    (if violates_unique (users db) n e then
       (Ok (render_template "register.html" []), db, sess,
        [("Username or email already exists!", "danger")])
     else
       (Ok (redirect "login"),
        mkStore (users db ++ [new_user gen w db n e p]) (next_id db + 1), sess,
        [("Registration successful! Please login.", "success")]))
  /\ outcome (App1.register gen w (mkRequest POST (form3 n e p)) (init_st db sess)) =
    (if violates_unique (users db) n e then
       (Ok (render_template "register.html" []), db, sess,
        [("Username or email already exists!", "danger")])
     else
       (Ok (redirect "login"),
        mkStore (users db ++ [new_user gen w db n e p]) (next_id db + 1), sess,
        [("Registration successful! Please login.", "success")])).
Proof.
  intros Hc Hf. split.
  - apply app_register_table; [by apply connects_first|exact Hf].
  - by apply app1_register_table.
Qed.

Lemma register_outcomes_witness :
  outcome (App.register demo_generate world_ok
             (mkRequest POST (form3 "bob" "bob@x.com" "pw2")) (init_st db_alice ∅)) =
    (Ok (redirect "login"),
     mkStore [alice; mkUser 2 "bob" "bob@x.com" "s1$pw2" 2000] 3, ∅,
     [("Registration successful! Please login.", "success")])
  /\ outcome (App.register demo_generate world_ok
                (mkRequest POST (form3 "alice" "alice2@x.com" "pw2"))
                (init_st db_alice ∅)) =
       (Ok (render_template "register.html" []), db_alice, ∅,
        [("Username or email already exists!", "danger")]).
Proof.
  split.
  - exact (proj1 (register_outcomes demo_generate world_ok db_alice ∅
                    "bob" "bob@x.com" "pw2" eq_refl eq_refl)).
  - exact (proj1 (register_outcomes demo_generate world_ok db_alice ∅
                    "alice" "alice2@x.com" "pw2" eq_refl eq_refl)).
Defined.


Lemma unique_db_alice : unique_users db_alice.
Proof. split; apply NoDup_singleton. Qed.


(** X6.  Logout always succeeds and ends Anonymous: in both variants and
    from any session, the response is a redirect to the login view, one
    informational message is flashed, [user_id] and [username] are no
    longer in the session, and no store call is made. *)
Theorem logout_ends_anonymous (s : St) :
  fst (App.logout s) = Ok (redirect "login")
  /\ st_session (snd (App.logout s)) !! "user_id" = None
  /\ st_session (snd (App.logout s)) !! "username" = None
  /\ st_session (snd (App.logout s)) !! "email" = None
  /\ st_flashes (snd (App.logout s)) =
       (st_flashes s ++ [("You have been logged out.", "info")])%list
  /\ st_trace (snd (App.logout s)) = st_trace s
  /\ fst (App1.logout s) = Ok (redirect "login")
  /\ st_session (snd (App1.logout s)) !! "user_id" = None
  /\ st_session (snd (App1.logout s)) !! "username" = None
  /\ st_flashes (snd (App1.logout s)) =
       (st_flashes s ++ [("You have been logged out.", "info")])%list
  /\ st_trace (snd (App1.logout s)) = st_trace s.
Proof.
  unfold App.logout, App1.logout. run_prims.
  repeat split; by simplify_map_eq.
Qed.

(** X7.  Register, then log in.  If [check_password_hash] accepts a
    password against the hash [generate_password_hash] made of it, then
    after a successful registration of a fresh username and email with a
    non-empty password, a login with the same form authenticates as the new
    user: app.py (by email, which must be non-empty) and app1.py (by
    username) bind the session to the new row's id and redirect home. *)
Theorem register_then_login (gen : string -> string -> string)
    (chk : string -> string -> bool) (w w' : World) (db : Store)
    (sess sess' : gmap string value) (n e p : string) :
  e <> "" -> p <> "" ->
  w_connect w 0 = Connected -> w_fault w = None ->
  w_connect w' 0 = Connected -> w_fault w' = None ->
  violates_unique (users db) n e = false ->
  chk (gen (w_salt w) p) p = true ->
  outcome (App.login chk w' (mkRequest POST (form3 n e p))
             (init_st (st_store (snd (App.register gen w (mkRequest POST (form3 n e p))
                                        (init_st db sess)))) sess')) =
    login_outcome_app
      (mkStore (users db ++ [new_user gen w db n e p]) (next_id db + 1)) sess'
      (Accepted (new_user gen w db n e p))
  /\ outcome (App1.login chk w' (mkRequest POST (form3 n e p))
                (init_st (st_store (snd (App1.register gen w (mkRequest POST (form3 n e p))
                                           (init_st db sess)))) sess')) =
       login_outcome_app1
         (mkStore (users db ++ [new_user gen w db n e p]) (next_id db + 1)) sess'
         (Some (new_user gen w db n e p)).
Proof.
  intros He Hp Hc Hf Hc' Hf' Hv Hchk.
  destruct (form3_lookup n e p) as (Hfn & Hfe & Hfp).
  pose proof (app_register_table gen w db sess n e p (connects_first w Hc) Hf) as Hr.
  pose proof (app1_register_table gen w db sess n e p Hc Hf) as Hr1.
  rewrite Hv in Hr, Hr1. unfold outcome in Hr, Hr1.
  injection Hr as _ Hdb _ _. injection Hr1 as _ Hdb1 _ _.
  rewrite Hdb, Hdb1. split.
  - rewrite app_login_table. f_equal.
    unfold login_case_app, lookup_fault, fault_at, verified_user.
    rewrite Hfe, Hfp, (py_not_nonempty e He), (py_not_nonempty p Hp),
      (connects_first w' Hc'), Hf'.
    cbn -[new_user find_by_email].
    rewrite (find_new_by_email db (new_user gen w db n e p) n e eq_refl eq_refl Hv).
    cbn. by rewrite Hchk.
  - rewrite (app1_login_table chk w' (form3 n e p) _ sess' n p Hfn Hfp Hc');
      [|unfold lookup_fault, fault_at; by rewrite Hf'].
    f_equal. cbn -[new_user find_by_username].
    rewrite (find_new_by_username db (new_user gen w db n e p) n e eq_refl eq_refl Hv).
    cbn. by rewrite Hchk.
Qed.

Lemma register_then_login_witness :
  fst (App.login demo_check world_ok (mkRequest POST (form3 "bob" "bob@x.com" "pw2"))
         (init_st (st_store (snd (App.register demo_generate world_ok
                                    (mkRequest POST (form3 "bob" "bob@x.com" "pw2"))
                                    (init_st db_alice ∅)))) ∅)) =
    Ok (redirect "index").
Proof.
  pose proof (proj1 (register_then_login demo_generate demo_check world_ok world_ok
                       db_alice ∅ ∅ "bob" "bob@x.com" "pw2"
                       ltac:(discriminate) ltac:(discriminate)
                       eq_refl eq_refl eq_refl eq_refl eq_refl eq_refl)) as H.
  apply outcome_result in H. exact H.
Defined.

(** * More on the connection phase *)


Lemma skipped_trace_attempts attempt n :
  connect_attempts (skipped_trace attempt n) = n.
Proof.
  revert attempt. induction n as [|n IH]; intros attempt; [reflexivity|].
  cbn. by rewrite IH.
Qed.

Lemma skipped_trace_delays attempt n : delays (skipped_trace attempt n) = [].
Proof.
  revert attempt. induction n as [|n IH]; intros attempt; [reflexivity|].
  cbn. by rewrite IH.
Qed.

Lemma loop_skipped_then_accepted w max d n :
  forall todo attempt s,
    (n < todo)%nat ->
    (forall i, (attempt <= i < attempt + n)%nat -> w_connect w i = NotConnected) ->
    w_connect w (attempt + n) = Connected ->
    App.get_db_connection_loop w max d todo attempt s =
      (Ok (Some MySQLConnection),
       with_conn Alive
         (with_trace
            (st_trace s ++ skipped_trace attempt n
               ++ [EConnect (attempt + n) Connected; EPrint LogConnected])%list s)).
Proof.
  induction n as [|n IH]; intros todo attempt s Hlt Hskip Hacc;
    (destruct todo as [|todo]; [lia|]);
    rewrite loop_step; unfold bind at 1;
    unfold try_except, bind, connect, emit, modify, is_connected, gets, print,
      ret, raise;
    cbn -[Nat.ltb App.get_db_connection_loop].
  - rewrite Nat.add_0_r in Hacc. rewrite Hacc. cbn.
    rewrite Nat.add_0_r. unfold_st. by rewrite <- app_assoc.
  - rewrite (Hskip attempt) by lia. cbn -[Nat.ltb App.get_db_connection_loop].
    rewrite (IH todo (S attempt)); [|lia| |].
    + unfold_st. repeat rewrite <- app_assoc. cbn.
      by replace (S (attempt + n)) with (attempt + S n)%nat by lia.
    + intros i Hi. apply Hskip. lia.
    + by replace (S attempt + n)%nat with (attempt + S n)%nat by lia.
Qed.

Lemma loop_all_skipped w max d :
  forall todo attempt s,
    (forall i, (attempt <= i < attempt + S todo)%nat -> w_connect w i = NotConnected) ->
    App.get_db_connection_loop w max d (S todo) attempt s =
      (Ok None,
       with_conn Dead
         (with_trace (st_trace s ++ skipped_trace attempt (S todo))%list s)).
Proof.
  induction todo as [|todo IH]; intros attempt s Hskip;
    rewrite loop_step; unfold bind at 1;
    unfold try_except, bind, connect, emit, modify, is_connected, gets, print,
      ret, raise;
    cbn -[Nat.ltb App.get_db_connection_loop];
    rewrite (Hskip attempt) by lia; cbn -[Nat.ltb App.get_db_connection_loop].
  - reflexivity.
  - rewrite (IH (S attempt)) by (intros i Hi; apply Hskip; lia).
    unfold_st. repeat rewrite <- app_assoc. reflexivity.
Qed.


(** A connection object that [connect] returns but whose [is_connected()]
    is false is passed over at once: no log line, no delay.  If the first
    N-1 calls return such connections and the N-th a live one, the function
    returns it after N calls and no sleep; if all [max_retries] calls do,
    it returns [None] through the final [return None], having slept never. *)
Theorem get_db_connection_skips_dead_connections (w : World)
    (max_retries : nat) (retry_delay : Z) (s : St) :
  (forall N,
     (1 <= N <= max_retries)%nat ->
     (forall i, (i < N - 1)%nat -> w_connect w i = NotConnected) ->
     w_connect w (N - 1) = Connected ->
     App.get_db_connection w max_retries retry_delay s =
       (Ok (Some MySQLConnection),
        with_conn Alive
          (with_trace
             (st_trace s ++ skipped_trace 0 (N - 1)
                ++ [EConnect (N - 1) Connected; EPrint LogConnected])%list s))
     /\ connect_attempts (skipped_trace 0 (N - 1)
                            ++ [EConnect (N - 1) Connected; EPrint LogConnected]) = N
     /\ delays (skipped_trace 0 (N - 1)
                  ++ [EConnect (N - 1) Connected; EPrint LogConnected]) = [])
  /\ ((1 <= max_retries)%nat ->
      (forall i, (i < max_retries)%nat -> w_connect w i = NotConnected) ->
      App.get_db_connection w max_retries retry_delay s =
        (Ok None,
         with_conn Dead
           (with_trace (st_trace s ++ skipped_trace 0 max_retries)%list s))
      /\ connect_attempts (skipped_trace 0 max_retries) = max_retries
      /\ delays (skipped_trace 0 max_retries) = []).
Proof.
  split.
  - intros N HN Hskip Hacc. split; [|split].
    + unfold App.get_db_connection.
      apply (loop_skipped_then_accepted w max_retries retry_delay (N - 1));
        [lia|intros i Hi; apply Hskip; lia|exact Hacc].
    + rewrite connect_attempts_app, skipped_trace_attempts. cbn. lia.
    + rewrite delays_app, skipped_trace_delays. reflexivity.
  - intros Hmax Hskip. destruct max_retries as [|m]; [lia|].
    split; [|split].
    + unfold App.get_db_connection. apply loop_all_skipped.
      intros i Hi. apply Hskip. lia.
    + apply skipped_trace_attempts.
    + apply skipped_trace_delays.
Qed.

Lemma get_db_connection_skips_dead_connections_witness :
  App.get_db_connection world_second_live 5 5 (init_st db_alice ∅) =
    (Ok (Some MySQLConnection),
     with_conn Alive
       (with_trace
          [EConnect 0 NotConnected; EConnect 1 Connected; EPrint LogConnected]
          (init_st db_alice ∅))).
Proof.
  refine (proj1 (proj1 (get_db_connection_skips_dead_connections
                          world_second_live 5 5 (init_st db_alice ∅))
                       2%nat _ _ _)).
  - lia.
  - intros i Hi. destruct i as [|i]; [reflexivity|lia].
  - reflexivity.
Defined.

(** * Forms, missing fields, exceptions *)

Lemma register_missing gen w fields s k :
  (k = "username" /\ fields !! "username" = None)
  \/ (k = "email" /\ fields !! "username" <> None /\ fields !! "email" = None)
  \/ (k = "password" /\ fields !! "username" <> None /\ fields !! "email" <> None
      /\ fields !! "password" = None) ->
  App.register gen w (mkRequest POST fields) s = (Raise (BadRequestKeyError k), s)
  /\ App1.register gen w (mkRequest POST fields) s = (Raise (BadRequestKeyError k), s).
Proof.
  unfold App.register, App1.register. cbn [is_post method form].
  unfold form_item, bind, raise, ret. cbn [form].
  intros [[-> H]|[[-> (H1 & H2)]|[-> (H1 & H2 & H3)]]].
  - by rewrite H.
  - destruct (fields !! "username"); [|done]. by rewrite H2.
  - destruct (fields !! "username"); [|done].
    destruct (fields !! "email"); [|done]. by rewrite H3.
Qed.

Lemma app1_login_missing chk w fields s k :
  (k = "username" /\ fields !! "username" = None)
  \/ (k = "password" /\ fields !! "username" <> None /\ fields !! "password" = None) ->
  App1.login chk w (mkRequest POST fields) s = (Raise (BadRequestKeyError k), s).
Proof.
  unfold App1.login. cbn [is_post method form].
  unfold form_item, bind, raise, ret. cbn [form].
  intros [[-> H]|[-> (H1 & H2)]].
  - by rewrite H.
  - destruct (fields !! "username"); [|done]. by rewrite H2.
Qed.

(** Missing form fields.  [request.form[k]] on an absent field ends the
    handler before the password is hashed and before any connection is
    attempted: [register] (both variants) raises the bad-request error of
    the first absent field among username, email, password, and app1.py's
    [login] of the first among username, password, leaving the request
    state exactly as it was.  A GET to [register] or [login] renders the
    form and changes nothing. *)
Theorem missing_field_rejected_before_store
    (gen : string -> string -> string) (chk : string -> string -> bool)
    (w : World) (fields : gmap string string) (s : St) :
  (forall k,
     (k = "username" /\ fields !! "username" = None)
     \/ (k = "email" /\ fields !! "username" <> None /\ fields !! "email" = None)
     \/ (k = "password" /\ fields !! "username" <> None
         /\ fields !! "email" <> None /\ fields !! "password" = None) ->
     App.register gen w (mkRequest POST fields) s =
       (Raise (BadRequestKeyError k), s)
     /\ App1.register gen w (mkRequest POST fields) s =
       (Raise (BadRequestKeyError k), s))
  /\ (forall k,
        (k = "username" /\ fields !! "username" = None)
        \/ (k = "password" /\ fields !! "username" <> None
            /\ fields !! "password" = None) ->
        App1.login chk w (mkRequest POST fields) s =
          (Raise (BadRequestKeyError k), s))
  /\ App.register gen w (mkRequest GET fields) s =
       (Ok (render_template "register.html" []), s)
  /\ App1.register gen w (mkRequest GET fields) s =
       (Ok (render_template "register.html" []), s)
  /\ App.login chk w (mkRequest GET fields) s =
       (Ok (render_template "login.html" []), s)
  /\ App1.login chk w (mkRequest GET fields) s =
       (Ok (render_template "login.html" []), s).
Proof.
  split; [intros k; apply register_missing|].
  split; [intros k; apply app1_login_missing|].
  repeat split.
Qed.

Lemma missing_field_rejected_before_store_witness :
  App.register demo_generate world_ok (mkRequest POST fields_no_email)
    (init_st db_alice ∅) =
    (Raise (BadRequestKeyError "email"), init_st db_alice ∅)
  /\ App1.login demo_check world_ok (mkRequest POST ∅) (init_st db_alice ∅) =
       (Raise (BadRequestKeyError "username"), init_st db_alice ∅).
Proof.
  split.
  - refine (proj1 (proj1 (missing_field_rejected_before_store demo_generate
                            demo_check world_ok fields_no_email
                            (init_st db_alice ∅)) "email" _)).
    right; left. split; [reflexivity|]. split; [discriminate|reflexivity].
  - refine (proj1 (proj2 (missing_field_rejected_before_store demo_generate
                            demo_check world_ok ∅ (init_st db_alice ∅)))
                  "username" _).
    left. split; reflexivity.
Defined.









(** * What the handlers leave alone *)

Ltac solve_same := cbn; repeat split; reflexivity.

Lemma app_login_store chk w req db sess :
  st_store (snd (App.login chk w req (init_st db sess))) = db.
Proof.
  destruct req as [[|] fields]; [reflexivity|].
  explore_app_login chk w fields db u0.
  all: reflexivity.
Qed.

Lemma app1_login_store chk w req db sess :
  st_store (snd (App1.login chk w req (init_st db sess))) = db.
Proof.
  destruct req as [[|] fields]; [reflexivity|].
  explore_app1_login chk w fields db n p u0.
  all: reflexivity.
Qed.

Lemma app_dashboard_same w db sess :
  st_store (snd (App.dashboard w (init_st db sess))) = db
  /\ st_session (snd (App.dashboard w (init_st db sess))) = sess.
Proof.
  explore_app_dashboard w db sess v i u0.
  all: solve_same.
Qed.

Lemma app1_dashboard_same w db sess :
  st_store (snd (App1.dashboard w (init_st db sess))) = db
  /\ st_session (snd (App1.dashboard w (init_st db sess))) = sess.
Proof.
  explore_app1_dashboard w db sess v i u0.
  all: solve_same.
Qed.

Lemma app_register_session gen w req db sess :
  st_session (snd (App.register gen w req (init_st db sess))) = sess.
Proof.
  destruct req as [[|] fields]; [reflexivity|].
  explore_app_register w fields db n e p.
  all: reflexivity.
Qed.

Lemma app1_register_session gen w req db sess :
  st_session (snd (App1.register gen w req (init_st db sess))) = sess.
Proof.
  destruct req as [[|] fields]; [reflexivity|].
  explore_app1_register w fields db n e p.
  all: reflexivity.
Qed.

Lemma index_same s :
  snd (App.index s) = s /\ snd (App1.index s) = s.
Proof.
  unfold App.index, App1.index. run_prims.
  destruct (st_session s !! "user_id"); cbn;
    destruct (st_session s !! "username"); cbn; done.
Qed.

Ltac solve_appended :=
  cbn; rewrite ?Z.add_0_r;
  first
    [ left; split; reflexivity
    | right; do 3 eexists; repeat split; try eassumption; reflexivity ].

Lemma app_register_appends gen w req db sess :
  (st_store (snd (App.register gen w req (init_st db sess))) = db)
  \/ exists n e p,
       form req !! "username" = Some n
       /\ form req !! "email" = Some e
       /\ form req !! "password" = Some p
       /\ violates_unique (users db) n e = false
       /\ st_store (snd (App.register gen w req (init_st db sess))) =
            mkStore (users db ++ [mkUser (next_id db) n e (gen (w_salt w) p) (w_now w)])
                    (next_id db + 1).
Proof.
  destruct req as [[|] fields]; [by left|]. cbn [form].
  explore_app_register w fields db n e p.
  all: cbn; rewrite ?Z.add_0_r.
  all: first [by left | right; exists n, e, p; by repeat split].
Qed.

Lemma app1_register_appends gen w req db sess :
  (st_store (snd (App1.register gen w req (init_st db sess))) = db)
  \/ exists n e p,
       form req !! "username" = Some n
       /\ form req !! "email" = Some e
       /\ form req !! "password" = Some p
       /\ violates_unique (users db) n e = false
       /\ st_store (snd (App1.register gen w req (init_st db sess))) =
            mkStore (users db ++ [mkUser (next_id db) n e (gen (w_salt w) p) (w_now w)])
                    (next_id db + 1).
Proof.
  destruct req as [[|] fields]; [by left|]. cbn [form].
  explore_app1_register w fields db n e p.
  all: cbn; rewrite ?Z.add_0_r.
  all: first [by left | right; exists n, e, p; by repeat split].
Qed.

(** What the handlers leave alone.  In every world and for every request:
    [login], [dashboard] and [index] never change the users table;
    [register], [dashboard] and [index] never change the session; and the
    table after a [register] is the table before it, or the table before it
    with one row appended, which carries the next id, the submitted
    username and email, the generated hash and the server time, and which
    the uniqueness constraints accepted.  In both variants. *)
Theorem handlers_frame (gen : string -> string -> string)
    (chk : string -> string -> bool) (w : World) (req : Request)
    (db : Store) (sess : gmap string value) :
  st_store (snd (App.login chk w req (init_st db sess))) = db
  /\ st_store (snd (App1.login chk w req (init_st db sess))) = db
  /\ st_store (snd (App.dashboard w (init_st db sess))) = db
  /\ st_session (snd (App.dashboard w (init_st db sess))) = sess
  /\ st_store (snd (App1.dashboard w (init_st db sess))) = db
  /\ st_session (snd (App1.dashboard w (init_st db sess))) = sess
  /\ snd (App.index (init_st db sess)) = init_st db sess
  /\ snd (App1.index (init_st db sess)) = init_st db sess
  /\ st_session (snd (App.register gen w req (init_st db sess))) = sess
  /\ st_session (snd (App1.register gen w req (init_st db sess))) = sess
  /\ (st_store (snd (App.register gen w req (init_st db sess))) = db
      \/ exists n e p,
           form req !! "username" = Some n
           /\ form req !! "email" = Some e
           /\ form req !! "password" = Some p
           /\ violates_unique (users db) n e = false
           /\ st_store (snd (App.register gen w req (init_st db sess))) =
                mkStore (users db
                           ++ [mkUser (next_id db) n e (gen (w_salt w) p) (w_now w)])
                        (next_id db + 1))
  /\ (st_store (snd (App1.register gen w req (init_st db sess))) = db
      \/ exists n e p,
           form req !! "username" = Some n
           /\ form req !! "email" = Some e
           /\ form req !! "password" = Some p
           /\ violates_unique (users db) n e = false
           /\ st_store (snd (App1.register gen w req (init_st db sess))) =
                mkStore (users db
                           ++ [mkUser (next_id db) n e (gen (w_salt w) p) (w_now w)])
                        (next_id db + 1)).
Proof.
  split; [apply app_login_store|].
  split; [apply app1_login_store|].
  split; [apply app_dashboard_same|].
  split; [apply app_dashboard_same|].
  split; [apply app1_dashboard_same|].
  split; [apply app1_dashboard_same|].
  split; [apply index_same|].
  split; [apply index_same|].
  split; [apply app_register_session|].
  split; [apply app1_register_session|].
  split; [apply app_register_appends|apply app1_register_appends].
Qed.

(** * The application as a state machine *)

Lemma store_wf_insert db u :
  store_wf db -> u_id u = next_id db ->
  store_wf (mkStore (users db ++ [u]) (next_id db + 1)).
Proof.
  intros [Hnd Hlt] Hid. split; cbn.
  - rewrite fmap_app. apply NoDup_app. split; [exact Hnd|].
    split; [|apply NoDup_singleton].
    intros x Hx Hx'. apply list_elem_of_singleton in Hx'. subst x.
    apply list_elem_of_fmap in Hx as (u' & Heq & Hin).
    specialize (Hlt u' Hin). lia.
  - intros u' Hin. apply elem_of_app in Hin as [Hin|Hin].
    + specialize (Hlt u' Hin). lia.
    + apply list_elem_of_singleton in Hin. subst. lia.
Qed.

Lemma session_consistent_grow db db' sess :
  (forall u, u ∈ users db -> u ∈ users db') ->
  session_consistent db sess -> session_consistent db' sess.
Proof.
  intros Hsub Hc v Hv. destruct (Hc v Hv) as (u & Hin & Heq & Hn).
  exists u. auto.
Qed.

Lemma register_state_ok db db' sess n e h t :
  state_ok (db, sess) ->
  db' = db
  \/ (violates_unique (users db) n e = false
      /\ db' = mkStore (users db ++ [mkUser (next_id db) n e h t]) (next_id db + 1)) ->
  state_ok (db', sess).
Proof.
  intros (Hwf & Hu & Hs) [->|[Hv ->]]; [done|].
  split; [|split]; cbn [fst snd].
  - by apply store_wf_insert.
  - by apply unique_after_insert.
  - eapply session_consistent_grow; [|exact Hs].
    intros u Hin. cbn. apply elem_of_app. by left.
Qed.

Lemma app_register_state_ok gen w req db sess :
  state_ok (db, sess) ->
  state_ok (after (App.register gen w req (init_st db sess))).
Proof.
  intros Hok. unfold after. rewrite app_register_session.
  destruct (app_register_appends gen w req db sess)
    as [->|(n & e & p & _ & _ & _ & Hv & ->)]; [done|].
  eapply register_state_ok; [exact Hok|right; split; [exact Hv|reflexivity]].
Qed.

Lemma app1_register_state_ok gen w req db sess :
  state_ok (db, sess) ->
  state_ok (after (App1.register gen w req (init_st db sess))).
Proof.
  intros Hok. unfold after. rewrite app1_register_session.
  destruct (app1_register_appends gen w req db sess)
    as [->|(n & e & p & _ & _ & _ & Hv & ->)]; [done|].
  eapply register_state_ok; [exact Hok|right; split; [exact Hv|reflexivity]].
Qed.

Lemma found_by_email_in rows e u rest :
  find_by_email rows e = u :: rest -> u ∈ rows.
Proof.
  intros H. assert (u ∈ find_by_email rows e) as Hin by (rewrite H; left).
  unfold find_by_email in Hin. apply list_elem_of_filter in Hin. tauto.
Qed.

Lemma found_by_username_in rows n u rest :
  find_by_username rows n = u :: rest -> u ∈ rows.
Proof.
  intros H. assert (u ∈ find_by_username rows n) as Hin by (rewrite H; left).
  unfold find_by_username in Hin. apply list_elem_of_filter in Hin. tauto.
Qed.

Lemma app_login_session chk w req db sess :
  st_session (snd (App.login chk w req (init_st db sess))) = sess
  \/ exists u, u ∈ users db
       /\ st_session (snd (App.login chk w req (init_st db sess))) =
            <["email" := VStr (u_email u)]>
              (<["username" := VStr (u_username u)]>
                 (<["user_id" := VInt (u_id u)]> sess)).
Proof.
  destruct req as [[|] fields]; [by left|].
  explore_app_login chk w fields db u0.
  all: first [by left
             | right; exists u0; split;
               [by eapply found_by_email_in|reflexivity]].
Qed.

Lemma app1_login_session chk w req db sess :
  st_session (snd (App1.login chk w req (init_st db sess))) = sess
  \/ exists u, u ∈ users db
       /\ st_session (snd (App1.login chk w req (init_st db sess))) =
            <["username" := VStr (u_username u)]>
              (<["user_id" := VInt (u_id u)]> sess).
Proof.
  destruct req as [[|] fields]; [by left|].
  explore_app1_login chk w fields db n p u0.
  all: first [by left
             | right; exists u0; split;
               [by eapply found_by_username_in|reflexivity]].
Qed.

Lemma app_login_state_ok chk w req db sess :
  state_ok (db, sess) ->
  state_ok (after (App.login chk w req (init_st db sess))).
Proof.
  intros (Hwf & Hu & Hs). unfold after. rewrite app_login_store.
  destruct (app_login_session chk w req db sess) as [->|(u & Hin & ->)]; [done|].
  split; [exact Hwf|]. split; [exact Hu|].
  intros v Hv. cbn [fst snd] in *. exists u. split; [exact Hin|].
  rewrite lookup_insert_ne, lookup_insert_ne, lookup_insert_eq in Hv by done.
  split; [congruence|].
  by rewrite lookup_insert_ne, lookup_insert_eq.
Qed.

Lemma app1_login_state_ok chk w req db sess :
  state_ok (db, sess) ->
  state_ok (after (App1.login chk w req (init_st db sess))).
Proof.
  intros (Hwf & Hu & Hs). unfold after. rewrite app1_login_store.
  destruct (app1_login_session chk w req db sess) as [->|(u & Hin & ->)]; [done|].
  split; [exact Hwf|]. split; [exact Hu|].
  intros v Hv. cbn [fst snd] in *. exists u. split; [exact Hin|].
  rewrite lookup_insert_ne, lookup_insert_eq in Hv by done.
  split; [congruence|].
  by rewrite lookup_insert_eq.
Qed.

Lemma logout_state_ok db sess :
  state_ok (db, sess) ->
  state_ok (after (App.logout (init_st db sess)))
  /\ state_ok (after (App1.logout (init_st db sess))).
Proof.
  intros (Hwf & Hu & Hs).
  unfold after, App.logout, App1.logout. run_prims.
  split; (split; [exact Hwf|]; split; [exact Hu|]); intros v Hv; cbn in Hv;
    by simplify_map_eq.
Qed.

Lemma step_app_state_ok gen chk x y :
  step_app gen chk x y -> state_ok x -> state_ok y.
Proof.
  intros Hstep Hok. destruct Hstep as [db sess|w req db sess|w req db sess
                                       |db sess|w db sess|db sess].
  - unfold after. by rewrite (proj1 (index_same _)).
  - exact (app_register_state_ok gen w req db sess Hok).
  - exact (app_login_state_ok chk w req db sess Hok).
  - exact (proj1 (logout_state_ok db sess Hok)).
  - unfold after.
    by rewrite (proj1 (app_dashboard_same _ _ _)), (proj2 (app_dashboard_same _ _ _)).
  - exact Hok.
Qed.

Lemma step_app1_state_ok gen chk x y :
  step_app1 gen chk x y -> state_ok x -> state_ok y.
Proof.
  intros Hstep Hok. destruct Hstep as [db sess|w req db sess|w req db sess
                                       |db sess|w db sess].
  - unfold after. by rewrite (proj2 (index_same _)).
  - exact (app1_register_state_ok gen w req db sess Hok).
  - exact (app1_login_state_ok chk w req db sess Hok).
  - exact (proj2 (logout_state_ok db sess Hok)).
  - unfold after.
    by rewrite (proj1 (app1_dashboard_same _ _ _)), (proj2 (app1_dashboard_same _ _ _)).
Qed.


Lemma reachable_app_state_ok gen chk init x :
  state_ok init -> reachable (step_app gen chk) init x -> state_ok x.
Proof.
  intros Hinit Hr. induction Hr as [|y z _ IH Hstep]; [exact Hinit|].
  by eapply step_app_state_ok.
Qed.

Lemma reachable_app1_state_ok gen chk init x :
  state_ok init -> reachable (step_app1 gen chk) init x -> state_ok x.
Proof.
  intros Hinit Hr. induction Hr as [|y z _ IH Hstep]; [exact Hinit|].
  by eapply step_app1_state_ok.
Qed.

Lemma find_by_id_unique rows u :
  NoDup (u_id <$> rows) -> u ∈ rows -> find_by_id rows (u_id u) = [u].
Proof.
  unfold find_by_id. induction rows as [|a rows IH]; intros Hnd Hin.
  - by apply elem_of_nil in Hin.
  - rewrite fmap_cons in Hnd. apply NoDup_cons in Hnd as [Hfresh Hnd].
    apply elem_of_cons in Hin as [->|Hin].
    + rewrite filter_cons_True by reflexivity. f_equal.
      apply filter_none. intros u' Hu' Heq. apply Hfresh.
      rewrite <- Heq. apply list_elem_of_fmap. by exists u'.
    + rewrite filter_cons_False; [by apply IH|].
      intros Heq. apply Hfresh. rewrite Heq.
      apply list_elem_of_fmap. by exists u.
Qed.

Lemma index_logged_in db sess v x :
  sess !! "user_id" = Some v -> sess !! "username" = Some x ->
  App.index (init_st db sess) =
    (Ok (render_template "home.html" [("username", ObjValue x)]), init_st db sess)
  /\ App1.index (init_st db sess) =
    (Ok (render_template "home.html" [("username", ObjValue x)]), init_st db sess).
Proof.
  intros Hv Hx. unfold App.index, App1.index. run_prims.
  rewrite Hv. cbn. by rewrite Hx.
Qed.

Lemma index_anonymous db sess :
  sess !! "user_id" = None ->
  App.index (init_st db sess) = (Ok (redirect "login"), init_st db sess)
  /\ App1.index (init_st db sess) = (Ok (redirect "login"), init_st db sess).
Proof.
  intros Hv. unfold App.index, App1.index. run_prims. by rewrite Hv.
Qed.

Lemma dashboard_consistent w db sess v :
  store_wf db -> session_consistent db sess ->
  sess !! "user_id" = Some v -> w_fault w = None ->
  exists u,
    u ∈ users db /\ v = VInt (u_id u)
    /\ sess !! "username" = Some (VStr (u_username u))
    /\ (connects_within w 5 0 = true ->
        fst (App.dashboard w (init_st db sess)) =
          Ok (render_template "dashboard.html" [("user", ObjDict (row_profile u))]))
    /\ (w_connect w 0 = Connected ->
        fst (App1.dashboard w (init_st db sess)) =
          Ok (render_template "dashboard.html" [("user", ObjDict (row_profile u))])).
Proof.
  intros [Hnd _] Hc Hs Hf. destruct (Hc v Hs) as (u & Hin & -> & Hn).
  exists u. repeat split; try done.
  - intros Hcw.
    exact (app_dashboard_profile w db sess (u_id u) u [] Hs Hcw Hf
             (find_by_id_unique _ _ Hnd Hin)).
  - intros Hcw.
    exact (app1_dashboard_profile w db sess (u_id u) u [] Hs Hcw Hf
             (find_by_id_unique _ _ Hnd Hin)).
Qed.

Lemma state_ok_empty_session db :
  store_wf db -> unique_users db -> state_ok (db, ∅).
Proof. intros Hwf Hu. split; [done|]. split; [done|]. intros v Hv. done. Qed.

(** The invariants of the running application.  Start from a table whose
    ids are distinct and below the counter and whose usernames and emails
    are unique, and from an empty session; let any sequence of requests to
    the routes of app.py be handled, in any worlds.  Then the table still
    has distinct ids below the counter and unique usernames and emails, and
    a session that holds [user_id] holds the id of an existing row together
    with that row's username.  Hence [index] never fails on
    [session['username']] and shows the stored username, and a dashboard
    request that reaches the store shows the row of the logged-in user. *)
Theorem app_reachable_invariants (gen : string -> string -> string)
    (chk : string -> string -> bool) (db0 db : Store)
    (sess : gmap string value) :
  store_wf db0 -> unique_users db0 ->
  reachable (step_app gen chk) (db0, ∅) (db, sess) ->
  store_wf db /\ unique_users db /\ session_consistent db sess
  /\ (exists r, fst (App.index (init_st db sess)) = Ok r)
  /\ (forall w v,
        sess !! "user_id" = Some v ->
        connects_within w 5 0 = true -> w_fault w = None ->
        exists u,
          u ∈ users db /\ v = VInt (u_id u)
          /\ sess !! "username" = Some (VStr (u_username u))
          /\ fst (App.index (init_st db sess)) =
               Ok (render_template "home.html"
                     [("username", ObjValue (VStr (u_username u)))])
          /\ fst (App.dashboard w (init_st db sess)) =
               Ok (render_template "dashboard.html"
                     [("user", ObjDict (row_profile u))])).
Proof.
  intros Hwf Hu Hr.
  pose proof (reachable_app_state_ok gen chk _ _
                (state_ok_empty_session db0 Hwf Hu) Hr) as (Hwf' & Hu' & Hs').
  cbn [fst snd] in *.
  split; [exact Hwf'|]. split; [exact Hu'|]. split; [exact Hs'|]. split.
  - destruct (sess !! "user_id") as [v|] eqn:Hv.
    + destruct (Hs' v Hv) as (u & _ & _ & Hn).
      rewrite (proj1 (index_logged_in db sess v _ Hv Hn)). by eexists.
    + rewrite (proj1 (index_anonymous db sess Hv)). by eexists.
  - intros w v Hv Hc Hf.
    destruct (dashboard_consistent w db sess v Hwf' Hs' Hv Hf)
      as (u & Hin & -> & Hn & Hd & _).
    exists u. split; [exact Hin|]. split; [reflexivity|]. split; [exact Hn|].
    split; [|by apply Hd].
    by rewrite (proj1 (index_logged_in db sess _ _ Hv Hn)).
Qed.

(** The same invariants for app1.py. *)
Theorem app1_reachable_invariants (gen : string -> string -> string)
    (chk : string -> string -> bool) (db0 db : Store)
    (sess : gmap string value) :
  store_wf db0 -> unique_users db0 ->
  reachable (step_app1 gen chk) (db0, ∅) (db, sess) ->
  store_wf db /\ unique_users db /\ session_consistent db sess
  /\ (exists r, fst (App1.index (init_st db sess)) = Ok r)
  /\ (forall w v,
        sess !! "user_id" = Some v ->
        w_connect w 0 = Connected -> w_fault w = None ->
        exists u,
          u ∈ users db /\ v = VInt (u_id u)
          /\ sess !! "username" = Some (VStr (u_username u))
          /\ fst (App1.index (init_st db sess)) =
               Ok (render_template "home.html"
                     [("username", ObjValue (VStr (u_username u)))])
          /\ fst (App1.dashboard w (init_st db sess)) =
               Ok (render_template "dashboard.html"
                     [("user", ObjDict (row_profile u))])).
Proof.
  intros Hwf Hu Hr.
  pose proof (reachable_app1_state_ok gen chk _ _
                (state_ok_empty_session db0 Hwf Hu) Hr) as (Hwf' & Hu' & Hs').
  cbn [fst snd] in *.
  split; [exact Hwf'|]. split; [exact Hu'|]. split; [exact Hs'|]. split.
  - destruct (sess !! "user_id") as [v|] eqn:Hv.
    + destruct (Hs' v Hv) as (u & _ & _ & Hn).
      rewrite (proj2 (index_logged_in db sess v _ Hv Hn)). by eexists.
    + rewrite (proj2 (index_anonymous db sess Hv)). by eexists.
  - intros w v Hv Hc Hf.
    destruct (dashboard_consistent w db sess v Hwf' Hs' Hv Hf)
      as (u & Hin & -> & Hn & _ & Hd).
    exists u. split; [exact Hin|]. split; [reflexivity|]. split; [exact Hn|].
    split; [|by apply Hd].
    by rewrite (proj2 (index_logged_in db sess _ _ Hv Hn)).
Qed.

Lemma store_wf_db_alice : store_wf db_alice.
Proof.
  split; [apply NoDup_singleton|].
  intros u Hu. apply list_elem_of_singleton in Hu. subst. reflexivity.
Qed.

Lemma app_reachable_invariants_witness :
  session_consistent
    (st_store (snd (App.login demo_check world_ok (mkRequest POST fields_alice)
                      (init_st db_alice ∅))))
    (st_session (snd (App.login demo_check world_ok (mkRequest POST fields_alice)
                        (init_st db_alice ∅)))).
Proof.
  refine (proj1 (proj2 (proj2 (app_reachable_invariants demo_generate demo_check
                                 db_alice _ _ store_wf_db_alice unique_db_alice _)))).
  eapply reach_step; [apply reach_init|].
  apply (step_app_login demo_generate demo_check world_ok
           (mkRequest POST fields_alice) db_alice ∅).
Defined.

Lemma app1_reachable_invariants_witness :
  session_consistent
    (st_store (snd (App1.login demo_check world_ok (mkRequest POST fields_alice)
                      (init_st db_alice ∅))))
    (st_session (snd (App1.login demo_check world_ok (mkRequest POST fields_alice)
                        (init_st db_alice ∅)))).
Proof.
  refine (proj1 (proj2 (proj2 (app1_reachable_invariants demo_generate demo_check
                                 db_alice _ _ store_wf_db_alice unique_db_alice _)))).
  eapply reach_step; [apply reach_init|].
  apply (step_app1_login demo_generate demo_check world_ok
           (mkRequest POST fields_alice) db_alice ∅).
Defined.

(** * What is sent to the store *)

Lemma statements_app tr1 tr2 :
  statements (tr1 ++ tr2) = (statements tr1 ++ statements tr2)%list.
Proof.
  induction tr1 as [|e tr1 IH]; [reflexivity|].
  destruct e; cbn; rewrite ?IH; reflexivity.
Qed.

Lemma statements_quiet tr : Forall quiet_event tr -> statements tr = [].
Proof.
  induction 1 as [|e tr He _ IH]; [reflexivity|].
  destruct e; cbn in *; try contradiction; exact IH.
Qed.

Ltac norm_statements :=
  cbn -[statements];
  repeat rewrite statements_app;
  try match goal with
      | H : Forall quiet_event ?tr |- _ => rewrite ?(statements_quiet tr H)
      end;
  cbn.

Lemma app_register_statements gen w req db sess :
  statements (st_trace (snd (App.register gen w req (init_st db sess)))) = []
  \/ exists n e p,
       form req !! "username" = Some n /\ form req !! "email" = Some e
       /\ form req !! "password" = Some p
       /\ statements (st_trace (snd (App.register gen w req (init_st db sess)))) =
            [(sql_insert_user, [VStr n; VStr e; VStr (gen (w_salt w) p)])].
Proof.
  destruct req as [[|] fields]; [by left|]. cbn [form].
  explore_app_register w fields db n e p.
  all: norm_statements.
  all: first [by left | right; exists n, e, p; by repeat split].
Qed.

Lemma app1_register_statements gen w req db sess :
  statements (st_trace (snd (App1.register gen w req (init_st db sess)))) = []
  \/ exists n e p,
       form req !! "username" = Some n /\ form req !! "email" = Some e
       /\ form req !! "password" = Some p
       /\ statements (st_trace (snd (App1.register gen w req (init_st db sess)))) =
            [(sql_insert_user, [VStr n; VStr e; VStr (gen (w_salt w) p)])].
Proof.
  destruct req as [[|] fields]; [by left|]. cbn [form].
  explore_app1_register w fields db n e p.
  all: norm_statements.
  all: first [by left | right; exists n, e, p; by repeat split].
Qed.

Lemma app_login_statements chk w req db sess :
  statements (st_trace (snd (App.login chk w req (init_st db sess)))) = []
  \/ statements (st_trace (snd (App.login chk w req (init_st db sess)))) =
       [(sql_select_by_email, [VStr (the (form req !! "email"))])].
Proof.
  destruct req as [[|] fields]; [by left|]. cbn [form].
  explore_app_login chk w fields db u0.
  all: norm_statements.
  all: first [by left | by right].
Qed.

Lemma app1_login_statements chk w req db sess :
  statements (st_trace (snd (App1.login chk w req (init_st db sess)))) = []
  \/ statements (st_trace (snd (App1.login chk w req (init_st db sess)))) =
       [(sql_select_by_username, [VStr (the (form req !! "username"))])].
Proof.
  destruct req as [[|] fields]; [by left|]. cbn [form].
  explore_app1_login chk w fields db n p u0.
  all: norm_statements.
  all: first [by left | by right].
Qed.

Lemma app_dashboard_statements w db sess :
  statements (st_trace (snd (App.dashboard w (init_st db sess)))) = []
  \/ exists v, sess !! "user_id" = Some v
       /\ statements (st_trace (snd (App.dashboard w (init_st db sess)))) =
            [(sql_select_profile, [v])].
Proof.
  explore_app_dashboard w db sess v i u0.
  all: norm_statements.
  all: first [by left | right; eexists; split; [reflexivity|reflexivity]].
Qed.

Lemma app1_dashboard_statements w db sess :
  statements (st_trace (snd (App1.dashboard w (init_st db sess)))) = []
  \/ exists v, sess !! "user_id" = Some v
       /\ statements (st_trace (snd (App1.dashboard w (init_st db sess)))) =
            [(sql_select_profile, [v])].
Proof.
  explore_app1_dashboard w db sess v i u0.
  all: norm_statements.
  all: first [by left | right; eexists; split; [reflexivity|reflexivity]].
Qed.

(** What is sent to the store.  Each request passes at most one statement
    to [cursor.execute].  [register] binds the submitted username and email
    and the hash made by [generate_password_hash], never the submitted
    password itself; [login] binds only the identifier (the email in
    app.py, the username in app1.py), the password is checked in the
    handler and is not sent; [dashboard] binds only the session's
    [user_id]. *)
Theorem statement_parameters (gen : string -> string -> string)
    (chk : string -> string -> bool) (w : World) (req : Request)
    (db : Store) (sess : gmap string value) :
  (statements (st_trace (snd (App.register gen w req (init_st db sess)))) = []
   \/ exists n e p,
        form req !! "username" = Some n /\ form req !! "email" = Some e
        /\ form req !! "password" = Some p
        /\ statements (st_trace (snd (App.register gen w req (init_st db sess)))) =
             [(sql_insert_user, [VStr n; VStr e; VStr (gen (w_salt w) p)])])
  /\ (statements (st_trace (snd (App1.register gen w req (init_st db sess)))) = []
      \/ exists n e p,
           form req !! "username" = Some n /\ form req !! "email" = Some e
           /\ form req !! "password" = Some p
           /\ statements (st_trace (snd (App1.register gen w req (init_st db sess)))) =
                [(sql_insert_user, [VStr n; VStr e; VStr (gen (w_salt w) p)])])
  /\ (statements (st_trace (snd (App.login chk w req (init_st db sess)))) = []
      \/ statements (st_trace (snd (App.login chk w req (init_st db sess)))) =
           [(sql_select_by_email, [VStr (the (form req !! "email"))])])
  /\ (statements (st_trace (snd (App1.login chk w req (init_st db sess)))) = []
      \/ statements (st_trace (snd (App1.login chk w req (init_st db sess)))) =
           [(sql_select_by_username, [VStr (the (form req !! "username"))])])
  /\ (statements (st_trace (snd (App.dashboard w (init_st db sess)))) = []
      \/ exists v, sess !! "user_id" = Some v
           /\ statements (st_trace (snd (App.dashboard w (init_st db sess)))) =
                [(sql_select_profile, [v])])
  /\ (statements (st_trace (snd (App1.dashboard w (init_st db sess)))) = []
      \/ exists v, sess !! "user_id" = Some v
           /\ statements (st_trace (snd (App1.dashboard w (init_st db sess)))) =
                [(sql_select_profile, [v])]).
Proof.
  split; [apply app_register_statements|].
  split; [apply app1_register_statements|].
  split; [apply app_login_statements|].
  split; [apply app1_login_statements|].
  split; [apply app_dashboard_statements|apply app1_dashboard_statements].
Qed.

(** * Schema setup *)

Ltac run_init_db :=
  unfold App1.init_db; run_prims;
  rewrite ?run_create_database; cbn -[run_statement];
  rewrite ?run_use; cbn -[run_statement];
  rewrite ?run_create_table; cbn -[run_statement].

Lemma st_ext (s s' : St) :
  st_store s = st_store s' -> st_session s = st_session s' ->
  st_flashes s = st_flashes s' -> st_trace s = st_trace s' ->
  st_conn s = st_conn s' -> st_cursor s = st_cursor s' ->
  st_pending s = st_pending s' -> st_results s = st_results s' -> s = s'.
Proof. destruct s, s'. cbn. by intros -> -> -> -> -> -> -> ->. Qed.

Lemma init_db_success cfg w db sess :
  w_connect w 0 = Connected ->
  fault_at w CallExecute = None -> fault_at w CallCommit = None ->
  App1.init_db cfg w (init_st db sess) =
    (Ok tt,
     mkSt db sess []
       [EConnect 0 Connected; ECursor;
        EExecute (sql_create_database_prefix ++ App1.database cfg) [];
        EExecute (sql_use_prefix ++ App1.database cfg) [];
        EExecute sql_create_table [];
        ECommit; ECursorClose; EConnClose; EPrint LogInitialized]
       Closed CursorClosed [] []).
Proof.
  unfold fault_at. intros Hc He Hm. revert He Hm.
  unfold App1.init_db. run_prims. rewrite Hc. cbn -[run_statement].
  destruct (w_fault w) as [[[] []]|]; cbn -[run_statement]; try discriminate.
  all: intros _ _; rewrite ?run_create_database; cbn -[run_statement];
    rewrite ?run_use; cbn -[run_statement];
    rewrite ?run_create_table; cbn -[run_statement].
  all: unfold emit, modify; f_equal; apply st_ext;
    cbn -[sql_create_database_prefix sql_use_prefix sql_create_table];
    try reflexivity.
  all: rewrite app_nil_r, Z.add_0_r; by destruct db.
Qed.

Lemma init_db_failure cfg w db sess :
  w_connect w 0 <> Connected \/ fault_at w CallExecute <> None
  \/ fault_at w CallCommit <> None ->
  fst (App1.init_db cfg w (init_st db sess)) = Raise MySQLError
  /\ ~ In EConnClose (st_trace (snd (App1.init_db cfg w (init_st db sess))))
  /\ ~ In (EPrint LogInitialized)
         (st_trace (snd (App1.init_db cfg w (init_st db sess))))
  /\ st_store (snd (App1.init_db cfg w (init_st db sess))) = db.
Proof.
  unfold fault_at. unfold App1.init_db. run_prims.
  destruct (w_connect w 0) eqn:Hc; cbn -[run_statement].
  2,3: intros _; repeat split; try reflexivity; intros [H|[]]; discriminate.
  destruct (w_fault w) as [[[] []]|]; cbn -[run_statement];
    rewrite ?run_create_database; cbn -[run_statement];
    rewrite ?run_use; cbn -[run_statement];
    rewrite ?run_create_table; cbn -[run_statement].
  all: intros [H|[H|H]]; try congruence.
  all: repeat split; try reflexivity.
  all: intros Hin; cbn in Hin;
    repeat (destruct Hin as [Hin|Hin]; [discriminate|]); exact Hin.
Qed.

(** [init_db] of app1.py.  When the server accepts the connection and no
    statement or commit fails, it issues CREATE DATABASE, USE and CREATE
    TABLE in this order, commits, closes the cursor and the connection and
    prints its success line; the rows of an existing table are unchanged.
    When the connection is refused, or a statement or the commit raises,
    the error leaves [init_db]: the success line is not printed and
    [connection.close()] is never called. *)
Theorem init_db_runs (cfg : App1.DbConfig) (w : World) (db : Store)
    (sess : gmap string value) :
  (w_connect w 0 = Connected ->
   fault_at w CallExecute = None -> fault_at w CallCommit = None ->
   App1.init_db cfg w (init_st db sess) =
     (Ok tt,
      mkSt db sess []
        [EConnect 0 Connected; ECursor;
         EExecute (sql_create_database_prefix ++ App1.database cfg) [];
         EExecute (sql_use_prefix ++ App1.database cfg) [];
         EExecute sql_create_table [];
         ECommit; ECursorClose; EConnClose; EPrint LogInitialized]
        Closed CursorClosed [] []))
  /\ (w_connect w 0 <> Connected \/ fault_at w CallExecute <> None
      \/ fault_at w CallCommit <> None ->
      fst (App1.init_db cfg w (init_st db sess)) = Raise MySQLError
      /\ ~ In EConnClose (st_trace (snd (App1.init_db cfg w (init_st db sess))))
      /\ ~ In (EPrint LogInitialized)
             (st_trace (snd (App1.init_db cfg w (init_st db sess))))
      /\ st_store (snd (App1.init_db cfg w (init_st db sess))) = db).
Proof.
  split; [apply init_db_success|apply init_db_failure].
Qed.

Lemma init_db_runs_witness :
  fst (App1.init_db App1.db_config world_ok (init_st db_alice ∅)) = Ok tt
  /\ fst (App1.init_db App1.db_config world_exec_fault (init_st db_alice ∅)) =
       Raise MySQLError.
Proof.
  split.
  - rewrite (proj1 (init_db_runs App1.db_config world_ok db_alice ∅)
               eq_refl eq_refl eq_refl).
    reflexivity.
  - refine (proj1 (proj2 (init_db_runs App1.db_config world_exec_fault db_alice ∅) _)).
    right; left. discriminate.
Defined.
